(** * Trade with Laiba: accounts, trades, ledger and persistence

    A shallow embedding of [trade.py]: the [User] and [Trade] classes, the
    [TradingSystem], the market oracle, the Stripe unlock flow, the
    [users.json] persistence and the "Login / Create Account" handler.

    Conventions.
    - A function that may raise returns [option], or an [outcome] that names
      the exception; [None] is "an exception was raised".
    - What the program reads from the outside (the HTTP reply of the price
      feed, the draw of [random.choice], the clock, the replies of Stripe,
      the bcrypt salt) is an explicit argument.
    - Python numbers are an interface ([PyNumber]): the program only adds,
      multiplies, negates and compares them.  Binary64 floats are an
      instance, used to run the program on concrete inputs.
    - A Python [dict] is an association list in insertion order.  The keys
      of a dict are distinct; lookup returns the first binding.
    - [User] objects are mutable and shared between [USERS] and
      [st.session_state]: they live in a store and are named by reference.
    - [users.json] holds the document [json.dump] was given and [json.load]
      returns it; writing the file does not fail.
    - The operations of one run of the script act on one USERS ([run]);
      Streamlit runs the script again on every click, which loads USERS
      anew ([rerun]). *)

From Stdlib Require Import ZArith String Ascii List Floats Lia.
From stdpp Require Import base option list sorting.
Import ListNotations.

Local Open Scope string_scope.
Local Open Scope list_scope.

(** ** Python numbers *)

Class PyNumber (num : Type) := {
  num_of_Z : Z → num;            (* an integer literal: 10000, 0, 100 *)
  num_0_9 : num;                 (* the float literal 0.9 *)
  num_add : num → num → num;     (* a + b *)
  num_mul : num → num → num;     (* a * b *)
  num_neg : num → num;           (* -a *)
  num_gt : num → num → bool      (* a > b *)
}.

(** ** JSON values, as [json.load] returns them and [json.dump] takes them *)

#[local] Set Warnings "-register-all".

Inductive json (num : Type) : Type :=
| JNull
| JBool (b : bool)
| JNum (n : num)
| JStr (s : string)
| JArr (items : list (json num))
| JObj (members : list (string * json num)).

Arguments JNull {num}.
Arguments JBool {num} b.
Arguments JNum {num} n.
Arguments JStr {num} s.
Arguments JArr {num} items.
Arguments JObj {num} members.

(** [d.get(key)]: [None] when the key is absent. *)
Fixpoint dict_get {V : Type} (key : string) (d : list (string * V)) : option V :=
  match d with
  | [] => None
  | (k, v) :: rest => if String.eqb k key then Some v else dict_get key rest
  end.

(** [float(x)] of the price feed: [None] when it raises. *)
Class PyFloatConv (num : Type) := {
  py_float : json num → option num
}.

(** The two functions of the bcrypt package the program calls.  [gensalt()]
    is random: the salt is an argument.  [checkpw] raises [ValueError] on a
    malformed hash ([None]).  [hashpw] is taken on the passwords it hashes;
    where the package refuses one (over 72 bytes in its latest versions) the
    handler raises and creates no account. *)
Class Bcrypt := {
  bcrypt_hashpw : string → string → string;
  bcrypt_checkpw : string → string → option bool
}.

(** [random.choice(seq)] with the index drawn by the generator. *)
Definition random_choice {A : Type} (seq : list A) (draw : nat) : option A :=
  seq !! (draw mod length seq).

(** ** The classes *)

Section Classes.
Context {num : Type} `{!PyNumber num}.

(** class Trade *)
Record Trade := mkTrade {
  amount : num;
  prediction : string;
  result : string
}.

Definition is_win (self : Trade) : bool :=
  String.eqb (prediction self) (result self).

(** An entry of [User.history]: {"timestamp": ..., "balance": ...}. *)
Record Snapshot := mkSnapshot {
  timestamp : string;
  snap_balance : num
}.

(** class User *)
Record User := mkUser {
  username : string;
  account_type : string;
  hashed_password : option string;
  balance : num;
  trades : list Trade;
  history : list Snapshot;
  premium_unlocked : bool
}.

(** User.__init__ *)
Definition User_init (username account_type : string)
    (hashed_password : option string) : User :=
  {| username := username;
     account_type := account_type;
     hashed_password := hashed_password;
     balance := if String.eqb account_type "demo"
                then num_of_Z 10000 else num_of_Z 0;
     trades := [];
     history := [];
     premium_unlocked := false |}.

(** Attribute assignment, [self.field = value]. *)
Definition set_account_type (self : User) (v : string) : User :=
  mkUser (username self) v (hashed_password self) (balance self)
         (trades self) (history self) (premium_unlocked self).

Definition set_hashed_password (self : User) (v : option string) : User :=
  mkUser (username self) (account_type self) v (balance self)
         (trades self) (history self) (premium_unlocked self).

Definition set_balance (self : User) (v : num) : User :=
  mkUser (username self) (account_type self) (hashed_password self) v
         (trades self) (history self) (premium_unlocked self).

Definition set_trades (self : User) (v : list Trade) : User :=
  mkUser (username self) (account_type self) (hashed_password self)
         (balance self) v (history self) (premium_unlocked self).

Definition set_history (self : User) (v : list Snapshot) : User :=
  mkUser (username self) (account_type self) (hashed_password self)
         (balance self) (trades self) v (premium_unlocked self).

Definition set_premium_unlocked (self : User) (v : bool) : User :=
  mkUser (username self) (account_type self) (hashed_password self)
         (balance self) (trades self) (history self) v.

(** User.update_balance; [now] is [str(datetime.now())]. *)
Definition update_balance (self : User) (amount : num) (now : string) : User :=
  let self := set_balance self (num_add (balance self) amount) in
  set_history self (history self ++ [mkSnapshot now (balance self)]).

(** User.get_level *)
Definition get_level (self : User) : string :=
  let count := length (trades self) in
  if (31 <=? count)%nat then "🌟 Pro"
  else if (11 <=? count)%nat then "🔥 Intermediate"
  else "🔰 Beginner".

(** ** The market oracle *)

(** What [requests.get(url)] followed by [response.json()] gives. *)
Inductive http_reply :=
| ConnectionError                    (* requests.get raises *)
| NotJSON                            (* response.json() raises *)
| Body (data : json num).

Definition as_dict (v : json num) : option (list (string * json num)) :=
  match v with JObj d => Some d | _ => None end.

(** [v[key]] with a string key: a dict that has the key, or it raises. *)
Definition subscript (v : json num) (key : string) : option (json num) :=
  d ← as_dict v; dict_get key d.

Context `{!PyFloatConv num}.

(** The body of the [try] of get_real_market_trend; [None] when any of its
    steps raises. *)
Definition trend_from_feed (reply : http_reply) : option string :=
  match reply with
  | ConnectionError | NotJSON => None
  | Body data =>
      series ← subscript data "Time Series (1min)";
      times ← map fst <$> as_dict series;
      t0 ← times !! 0;
      latest ← subscript series t0;
      t1 ← times !! 1;
      prev ← subscript series t1;
      latest_close ← subscript latest "4. close" ≫= py_float;
      prev_close ← subscript prev "4. close" ≫= py_float;
      Some (if num_gt latest_close prev_close then "up" else "down")
  end.

(** get_real_market_trend: the bare [except:] catches everything the [try]
    raises; [None] is left for an exception of the handler itself. *)
Definition get_real_market_trend (reply : http_reply) (draw : nat)
    : option string :=
  match trend_from_feed reply with
  | Some trend => Some trend
  | None => random_choice ["up"; "down"] draw
  end.

(** ** The trading engine, on one [User] object *)

(** TradingSystem.get_market_result *)
Definition get_market_result (reply : http_reply) (draw : nat) : option string :=
  get_real_market_trend reply draw.

(** TradingSystem.place_trade on the object [self.user]; returns the
    mutated object and the tuple [(won, result, delta)]. *)
Definition place_trade (user : User) (amount : num) (prediction : string)
    (reply : http_reply) (draw : nat) (now : string)
    : option (User * (bool * string * num)) :=
  result ← get_market_result reply draw;
  let trade := mkTrade amount prediction result in
  let user := set_trades user (trades user ++ [trade]) in
  if is_win trade then
    let win_amount := num_mul amount num_0_9 in
    Some (update_balance user win_amount now, (true, result, win_amount))
  else
    Some (update_balance user (num_neg amount) now,
          (false, result, num_neg amount)).

End Classes.

Arguments Trade num : clear implicits.
Arguments Snapshot num : clear implicits.
Arguments User num : clear implicits.
Arguments http_reply num : clear implicits.

(** ** Persistence: users.json *)

Section Persistence.
Context {num : Type} `{!PyNumber num}.

(** [vars(t)] *)
Definition trade_vars (t : Trade num) : json num :=
  JObj [("amount", JNum (amount t));
        ("prediction", JStr (prediction t));
        ("result", JStr (result t))].

Definition snapshot_dict (s : Snapshot num) : json num :=
  JObj [("timestamp", JStr (timestamp s)); ("balance", JNum (snap_balance s))].

Definition password_value (h : option string) : json num :=
  match h with Some h => JStr h | None => JNull end.

(** The record save_users builds for one user. *)
Definition user_record (user : User num) : json num :=
  JObj [("account_type", JStr (account_type user));
        ("balance", JNum (balance user));
        ("trades", JArr (map trade_vars (trades user)));
        ("history", JArr (map snapshot_dict (history user)));
        ("hashed_password", password_value (hashed_password user));
        ("premium_unlocked", JBool (premium_unlocked user))].

(** The document save_users dumps: one record per entry of [users.items()]. *)
Definition save_users_data (users : list (string * User num)) : json num :=
  JObj (map (λ '(username, user), (username, user_record user)) users).

(** Python keeps whatever value the file holds in a field; the records here
    are typed, so the readers below refuse a value of another type than the
    one save_users writes. *)
Definition as_num (v : json num) : option num :=
  match v with JNum n => Some n | _ => None end.

Definition as_str (v : json num) : option string :=
  match v with JStr s => Some s | _ => None end.

Definition as_bool (v : json num) : option bool :=
  match v with JBool b => Some b | _ => None end.

Definition as_list (v : json num) : option (list (json num)) :=
  match v with JArr l => Some l | _ => None end.

Definition as_password (v : json num) : option (option string) :=
  match v with JNull => Some None | JStr h => Some (Some h) | _ => None end.

(** Trade called with the dict [t] as keyword arguments: the keys must be
    exactly amount, prediction and result. *)
Definition Trade_from_kwargs (t : json num) : option (Trade num) :=
  kw ← as_dict t;
  if negb (length kw =? 3)%nat then None else
  amount ← dict_get "amount" kw ≫= as_num;
  prediction ← dict_get "prediction" kw ≫= as_str;
  result ← dict_get "result" kw ≫= as_str;
  Some (mkTrade amount prediction result).

Definition Snapshot_from_dict (s : json num) : option (Snapshot num) :=
  d ← as_dict s;
  if negb (length d =? 2)%nat then None else
  timestamp ← dict_get "timestamp" d ≫= as_str;
  balance ← dict_get "balance" d ≫= as_num;
  Some (mkSnapshot timestamp balance).

(** [info.get(key, default)] followed by the typed reader. *)
Definition get_or {A : Type} (key : string) (info : list (string * json num))
    (read : json num → option A) (default : A) : option A :=
  match dict_get key info with
  | None => Some default
  | Some v => read v
  end.

(** The body of the loop of load_users, for one item of [data.items()]. *)
Definition load_user (username : string) (info : json num) : option (User num) :=
  info ← as_dict info;
  account_type ← dict_get "account_type" info ≫= as_str;
  hashed ← get_or "hashed_password" info as_password None;
  let user := User_init username account_type hashed in
  balance ← dict_get "balance" info ≫= as_num;
  let user := set_balance user balance in
  trades ← get_or "trades" info (λ v, as_list v ≫= mapM Trade_from_kwargs) [];
  let user := set_trades user trades in
  history ← get_or "history" info (λ v, as_list v ≫= mapM Snapshot_from_dict) [];
  let user := set_history user history in
  hashed ← get_or "hashed_password" info as_password None;
  let user := set_hashed_password user hashed in
  premium ← get_or "premium_unlocked" info as_bool false;
  let user := set_premium_unlocked user premium in
  Some user.

(** load_users; [file] is the parsed content of users.json, [None] when the
    file does not exist. *)
Definition load_users (file : option (json num)) : option (list (string * User num)) :=
  match file with
  | None => Some []
  | Some data =>
      data ← as_dict data;
      mapM (λ '(username, info), user ← load_user username info;
                                 Some (username, user)) data
  end.

End Persistence.

(** ** The running application: store, USERS, session, file *)

Inductive exception := AttributeError | KeyError | ValueError | StripeError.

Inductive outcome (A : Type) :=
| Returned (a : A)
| Raised (e : exception).

Arguments Returned {A} a.
Arguments Raised {A} e.

(** An element of [stripe.payment_intents.list(...).data]. *)
Record PaymentIntent := mkPaymentIntent {
  status : string;
  metadata : list (string * string)
}.

(** What line 103, [stripe.payment_intents.list(limit=20)], gives.  The
    stripe package has no attribute [payment_intents]: with it the line
    raises AttributeError and the reply of every run is [PaymentListError].
    [PaymentList] is the reply the loop below is written for. *)
Inductive stripe_list_reply :=
| PaymentListError                         (* the call raises *)
| PaymentList (data : list PaymentIntent).

(** The arguments of [stripe.checkout.Session.create]. *)
Record checkout_request := mkCheckoutRequest {
  payment_method_types : list string;
  currency : string;
  product_name : string;
  unit_amount : Z;
  quantity : Z;
  mode : string;
  success_url : string;
  cancel_url : string;
  customer_email : string;
  metadata_username : string
}.

(** What the "Login / Create Account" button shows. *)
Inductive login_message :=
| AccountCreated | WelcomeBack | IncorrectPassword | PasswordRequired.

(** class TradingSystem: [user] is a reference to a [User] object. *)
Record TradingSystem := mkTradingSystem { user : nat }.

Section Application.
Context {num : Type} `{!PyNumber num} `{!PyFloatConv num} `{!Bcrypt}.

Record World := mkWorld {
  objects : list (User num);       (* the User objects; a reference is an index *)
  USERS : list (string * nat);     (* the dict USERS: username -> object *)
  session_user : option nat;       (* st.session_state.user *)
  session_email : option string;   (* st.session_state.email *)
  data_file : option (json num)    (* users.json *)
}.

Definition set_objects (w : World) (v : list (User num)) : World :=
  mkWorld v (USERS w) (session_user w) (session_email w) (data_file w).

Definition set_USERS (w : World) (v : list (string * nat)) : World :=
  mkWorld (objects w) v (session_user w) (session_email w) (data_file w).

Definition set_session (w : World) (user : nat) (email : string) : World :=
  mkWorld (objects w) (USERS w) (Some user) (Some email) (data_file w).

Definition set_data_file (w : World) (v : json num) : World :=
  mkWorld (objects w) (USERS w) (session_user w) (session_email w) (Some v).

(** [users.items()], each reference followed to its object.  A reference of
    USERS always names an object of the store. *)
Definition USERS_items (w : World) : list (string * User num) :=
  omap (λ '(username, r), user ← objects w !! r; Some (username, user)) (USERS w).

(** [USERS.get(username)] *)
Definition USERS_get (w : World) (username : string) : option (nat * User num) :=
  r ← dict_get username (USERS w);
  user ← objects w !! r;
  Some (r, user).

(** save_users(USERS) *)
Definition save_users (w : World) : World :=
  set_data_file w (save_users_data (USERS_items w)).

(** The module-level [USERS = load_users()]: one fresh object per entry. *)
Definition start (file : option (json num)) : option World :=
  users ← load_users file;
  Some {| objects := map snd users;
          USERS := imap (λ i '(username, _), (username, i)) users;
          session_user := None;
          session_email := None;
          data_file := file |}.

(** The loop of check_payment_and_unlock. *)
Fixpoint scan_payments (username : string) (data : list PaymentIntent)
    (w : World) : World * bool :=
  match data with
  | [] => (w, false)
  | payment :: rest =>
      if String.eqb (status payment) "succeeded"
         && match dict_get "username" (metadata payment) with
            | Some name => String.eqb name username
            | None => false
            end
      then
        match USERS_get w username with
        | Some (r, user) =>
            if negb (premium_unlocked user) then
              let user := set_premium_unlocked user true in
              let user := set_account_type user "real" in
              let user := set_balance user (num_of_Z 100) in
              (save_users (set_objects w (<[r := user]> (objects w))), true)
            else scan_payments username rest w
        | None => scan_payments username rest w
        end
      else scan_payments username rest w
  end.

(** check_payment_and_unlock; the [except] branch reports and returns False. *)
Definition check_payment_and_unlock (username : string)
    (reply : stripe_list_reply) (w : World) : World * bool :=
  match reply with
  | PaymentListError => (w, false)
  | PaymentList data => scan_payments username data w
  end.

(** The keyword arguments create_stripe_checkout_session passes to Stripe. *)
Definition checkout_arguments (user_email username : string) : checkout_request :=
  {| payment_method_types := ["card"];
     currency := "usd";
     product_name := "Trade with Laiba Premium";
     unit_amount := 500;
     quantity := 1;
     mode := "payment";
     success_url := "https://trade-with-laiba.streamlit.app/?status=success";
     cancel_url := "https://trade-with-laiba.streamlit.app/?status=cancel";
     customer_email := user_email;
     metadata_username := username |}.

(** create_stripe_checkout_session; [stripe_create] is the provider: the url
    of the session it creates, or [None] when it raises.  Reading
    [st.session_state.user] raises when nobody is logged in. *)
Definition create_stripe_checkout_session (user_email : string)
    (stripe_create : checkout_request → option string) (w : World)
    : World * outcome string :=
  match session_user w ≫= (objects w !!.) with
  | None => (w, Raised AttributeError)
  | Some session =>
      match stripe_create (checkout_arguments user_email (username session)) with
      | Some url => (w, Returned url)
      | None => (w, Raised StripeError)
      end
  end.

(** Python truth value of [user.hashed_password]: None and the empty string
    are false. *)
Definition truthy_password (h : option string) : option string :=
  match h with
  | Some "" | None => None
  | Some h => Some h
  end.

(** The handler of the "Login / Create Account" button; [salt] is
    [bcrypt.gensalt()].  The branch of a reference without object is never
    taken from a state with live references; it is given an exception. *)
Definition login_or_create (username password email account_type salt : string)
    (w : World) : World * outcome login_message :=
  match dict_get username (USERS w) with
  | None =>
      if String.eqb password "" then
        (save_users w, Returned PasswordRequired)
      else
        let hashed_pw := bcrypt_hashpw password salt in
        let r := length (objects w) in
        let w := set_objects w (objects w ++
                   [User_init username account_type (Some hashed_pw)]) in
        let w := set_USERS w (USERS w ++ [(username, r)]) in
        let w := save_users w in
        let w := set_session w r email in
        (save_users w, Returned AccountCreated)
  | Some r =>
      match objects w !! r with
      | None => (w, Raised KeyError)
      | Some user =>
          match truthy_password (hashed_password user) with
          | None => (save_users w, Returned IncorrectPassword)
          | Some hashed =>
              match bcrypt_checkpw password hashed with
              | None => (w, Raised ValueError)
              | Some true =>
                  (save_users (set_session w r email), Returned WelcomeBack)
              | Some false => (save_users w, Returned IncorrectPassword)
              end
          end
      end
  end.

(** TradingSystem.place_trade, on the object the trader holds; no answer
    when the trader holds no object of the store. *)
Definition TradingSystem_place_trade (self : TradingSystem) (amount : num)
    (prediction : string) (reply : http_reply num) (draw : nat) (now : string)
    (w : World) : World * option (bool * string * num) :=
  match objects w !! user self with
  | None => (w, None)
  | Some u =>
      match place_trade u amount prediction reply draw now with
      | None => (w, None)
      | Some (u', answer) =>
          (set_objects w (<[user self := u']> (objects w)), Some answer)
      end
  end.

(** The operations of a session, one per function the buttons call. *)
Inductive op :=
| LoginOrCreate (username password email account_type salt : string)
| PlaceTrade (trader : TradingSystem) (amount : num) (prediction : string)
             (reply : http_reply num) (draw : nat) (now : string)
| CreateCheckout (user_email : string)
                 (stripe_create : checkout_request → option string)
| CheckPayment (username : string) (reply : stripe_list_reply)
| SaveUsers.

Definition step (w : World) (o : op) : World :=
  match o with
  | LoginOrCreate username password email account_type salt =>
      fst (login_or_create username password email account_type salt w)
  | PlaceTrade trader amount prediction reply draw now =>
      fst (TradingSystem_place_trade trader amount prediction reply draw now w)
  | CreateCheckout user_email stripe_create =>
      fst (create_stripe_checkout_session user_email stripe_create w)
  | CheckPayment username reply =>
      fst (check_payment_and_unlock username reply w)
  | SaveUsers => save_users w
  end.

(** The operations of one run of the script, one after the other on the
    same USERS.  The next run of the script is [rerun], below. *)
Definition run (ops : list op) (w : World) : World := fold_left step ops w.

End Application.

Arguments World num : clear implicits.
Arguments op num : clear implicits.

(** ** Notions the properties are stated with *)

Section Notions.
Context {num : Type} `{!PyNumber num} `{!PyFloatConv num}.


(** The delta a recorded trade stands for. *)
Definition trade_delta (t : Trade num) : num :=
  if is_win t then num_mul (amount t) num_0_9 else num_neg (amount t).

(** One call of place_trade: its arguments and what it reads. *)
Record order := mkOrder {
  order_amount : num;
  order_prediction : string;
  order_reply : http_reply num;
  order_draw : nat;
  order_now : string
}.

(** A sequence of calls of place_trade on one object. *)
Fixpoint place_trades (user : User num) (orders : list order)
    : option (User num * list (bool * string * num)) :=
  match orders with
  | [] => Some (user, [])
  | o :: rest =>
      '(user, answer) ← place_trade user (order_amount o) (order_prediction o)
                           (order_reply o) (order_draw o) (order_now o);
      '(user, answers) ← place_trades user rest;
      Some (user, answer :: answers)
  end.

(** The fields save_users writes are the same in both accounts. *)
Definition same_account (a b : string * User num) : Prop :=
  a.1 = b.1
  ∧ account_type a.2 = account_type b.2
  ∧ balance a.2 = balance b.2
  ∧ trades a.2 = trades b.2
  ∧ history a.2 = history b.2
  ∧ hashed_password a.2 = hashed_password b.2
  ∧ premium_unlocked a.2 = premium_unlocked b.2.

(** The account is stored under its own username. *)
Definition keyed (a : string * User num) : Prop := username a.2 = a.1.

(** Once unlocked, an object stays unlocked and keeps its tier. *)
Definition stays_unlocked (u u' : User num) : Prop :=
  premium_unlocked u = true →
  premium_unlocked u' = true ∧ account_type u' = account_type u.

(** Every entry of USERS refers to an object of the store, which carries
    the username it is stored under. *)
Definition live_references (w : World num) : Prop :=
  Forall (λ entry, ∃ u, objects w !! entry.2 = Some u ∧ username u = entry.1)
         (USERS w).

(** The object check_payment_and_unlock writes back. *)
Definition unlocked (u : User num) : User num :=
  set_balance (set_account_type (set_premium_unlocked u true) "real")
              (num_of_Z 100).

End Notions.

Arguments order num : clear implicits.

(** The order of the tiers. *)
Definition level_rank (label : string) : nat :=
  if String.eqb label "🌟 Pro" then 2
  else if String.eqb label "🔥 Intermediate" then 1
  else 0.

(** ** Instances used to run the program *)

(** Binary64 floats.  [float_of_Z] rounds to nearest even, as the conversion
    of a Python int does; 0.9 is the double nearest to 9/10.  Python's ints
    and floats share this one type, which is exact for the ints up to 2^53
    the program writes (10000, 0, 100). *)
Definition float_of_Z (z : Z) : float :=
  SF2Prim (binary_normalize prec emax z 0 false).

#[export] Instance float_number : PyNumber float := {|
  num_of_Z := float_of_Z;
  num_0_9 := 0x1.ccccccccccccdp-1%float;
  num_add := PrimFloat.add;
  num_mul := PrimFloat.mul;
  num_neg := PrimFloat.opp;
  num_gt := λ a b, PrimFloat.ltb b a
|}.

Definition digit_value (c : Ascii.ascii) : option Z :=
  let n := Z.of_N (Ascii.N_of_ascii c) in
  if ((48 <=? n) && (n <=? 57))%Z then Some (n - 48)%Z else None.

(** Reads [digits] or [digits.digits]: the digits as one integer, how many
    of them there are and how many follow the point. *)
Fixpoint read_decimal (s : string) (m : Z) (digits : nat) (frac : option nat)
    : option (Z * nat * nat) :=
  match s with
  | EmptyString => Some (m, digits, default 0%nat frac)
  | String c rest =>
      if Ascii.eqb c "."%char then
        match frac with
        | None => read_decimal rest m digits (Some 0%nat)
        | Some _ => None
        end
      else
        d ← digit_value c;
        read_decimal rest (10 * m + d)%Z (S digits) (S <$> frac)
  end.

(** [float(s)] for a plain decimal of at most 15 digits, where the quotient
    of two exact doubles is the correctly rounded value.  The other
    spellings [float] accepts are outside this instance. *)
Definition float_of_string (s : string) : option float :=
  '(m, digits, frac) ← read_decimal s 0 0 None;
  if ((1 <=? digits) && (digits <=? 15))%nat
  then Some (PrimFloat.div (float_of_Z m) (float_of_Z (10 ^ Z.of_nat frac)))
  else None.

#[export] Instance float_conv : PyFloatConv float := {|
  py_float := λ v,
    match v with
    | JNum n => Some n
    | JStr s => float_of_string s
    | _ => None
    end
|}.

(** A stand-in for bcrypt, to run the login handler: the hash is the salt
    (7 characters) followed by the password. *)
#[export] Instance toy_bcrypt : Bcrypt := {|
  bcrypt_hashpw := λ password salt, String.append salt password;
  bcrypt_checkpw := λ password hashed,
    if (String.length hashed <? 7)%nat then None
    else Some (String.eqb (String.append (substring 0 7 hashed) password) hashed)
|}.

(** ** Concrete inputs *)

Definition feed_down : http_reply float :=
  Body (JObj
    [("Meta Data", JObj [("2. Symbol", JStr "SPY")]);
     ("Time Series (1min)", JObj
        [("2024-01-02 16:00:00",
          JObj [("1. open", JStr "472.80"); ("4. close", JStr "472.65")]);
         ("2024-01-02 15:59:00",
          JObj [("1. open", JStr "472.90"); ("4. close", JStr "472.81")])])]).

Definition feed_rate_limited : http_reply float :=
  Body (JObj [("Note", JStr "Thank you for using Alpha Vantage!")]).

Definition alice : User float := User_init "alice" "demo" (Some "$2b$12$secret").

Definition empty_world : World float := mkWorld [] [] None None None.

(** alice registers, then loses a trade of 100. *)
Definition world_alice : World float :=
  run [LoginOrCreate "alice" "secret" "alice@example.com" "demo" "$2b$12$";
       PlaceTrade (mkTradingSystem 0) 100%float "up" feed_down 0
                  "2024-01-02 16:00:01.000000";
       SaveUsers] empty_world.

Definition paid_by (username : string) : stripe_list_reply :=
  PaymentList [mkPaymentIntent "requires_payment_method" [("username", username)];
               mkPaymentIntent "succeeded" [("username", username)]].

#[local] Set Warnings "-inexact-float".

(** alice wins a trade of 1.0, then loses one of 7.7. *)
Definition two_orders : list (order float) :=
  [mkOrder 1%float "down" feed_down 0 "2024-01-02 16:00:01.000000";
   mkOrder 7.7%float "up" feed_down 0 "2024-01-02 16:00:09.000000"].

(** The world after alice's payment is verified. *)
Definition world_alice_unlocked : World float :=
  (check_payment_and_unlock "alice" (paid_by "alice") world_alice).1.

(** After the unlock alice wins a trade of 10. *)
Definition trade_after_unlock : list (op float) :=
  [PlaceTrade (mkTradingSystem 0) 10%float "down" feed_down 0
              "2024-01-02 16:05:00.000000";
   SaveUsers].

(** A file written before passwords existed. *)
Definition legacy_file : json float :=
  JObj [("carol", JObj [("account_type", JStr "demo"); ("balance", JNum 250%float)])].

(** ** The dashboard and further notions *)

Section Dashboard.
Context {num : Type} `{!PyNumber num}.

(** The rows of "Trade History": [enumerate(user.trades[::-1][:10], 1)],
    each with the trade and its label. *)
Definition trade_history_rows (user : User num)
    : list (nat * Trade num * string) :=
  imap (λ i trade, (S i, trade, if is_win trade then "✅ Win" else "❌ Loss"))
       (take 10 (reverse (trades user))).

(** [sorted(users, key=lambda u: u.balance, reverse=True)].  On keys that
    [<] orders, list.sort gives the one stable arrangement: descending, equal
    keys in their original order.  It is computed here by insertion from the
    right; [a < b] on numbers is [b > a]. *)
Fixpoint insert_by_balance (u : User num) (sorted : list (User num))
    : list (User num) :=
  match sorted with
  | [] => [u]
  | v :: rest =>
      if num_gt (balance v) (balance u) then v :: insert_by_balance u rest
      else u :: v :: rest
  end.

Definition sorted_by_balance_reverse (users : list (User num))
    : list (User num) :=
  foldr insert_by_balance [] users.

(** The "Leaderboard": [sorted(USERS.values(), ...)[:5]]. *)
Definition leaderboard (w : World num) : list (User num) :=
  take 5 (sorted_by_balance_reverse (map snd (USERS_items w))).

(** The balances after each delta of a sequence. *)
Fixpoint running_balances (start : num) (deltas : list num) : list num :=
  match deltas with
  | [] => []
  | d :: rest =>
      let b := num_add start d in b :: running_balances b rest
  end.

(** The test of the loop of check_payment_and_unlock on one payment. *)
Definition pays_for (username : string) (payment : PaymentIntent) : bool :=
  String.eqb (status payment) "succeeded"
  && match dict_get "username" (metadata payment) with
     | Some name => String.eqb name username
     | None => false
     end.

(** [>] is asymmetric and its negation transitive on the given keys: they
    are ordered, as numbers other than nan are. *)
Definition ordered_keys (keys : list num) : Prop :=
  (∀ a b, a ∈ keys → b ∈ keys → num_gt a b = true → num_gt b a = false)
  ∧ (∀ a b c, a ∈ keys → b ∈ keys → c ∈ keys →
       num_gt b a = false → num_gt c b = false → num_gt c a = false).

(** [a] comes before [b] on the leaderboard: [b] has no greater balance. *)
Definition not_poorer (a b : User num) : Prop :=
  num_gt (balance b) (balance a) = false.

End Dashboard.

(** ** Runs of the script *)

Section Runs.
Context {num : Type} `{!PyNumber num} `{!PyFloatConv num} `{!Bcrypt}.


(** Streamlit runs the script again on every click.  Line 176,
    [USERS = load_users()], then builds new objects from users.json and
    binds USERS to them; [st.session_state] keeps the object it held.
    [None] when load_users raises. *)
Definition rerun (w : World num) : option (World num) :=
  users ← load_users (data_file w);
  Some {| objects := objects w ++ map snd users;
          USERS := imap (λ i '(username, _),
                           (username, length (objects w) + i)) users;
          session_user := session_user w;
          session_email := session_email w;
          data_file := data_file w |}.

(** A click on "Place Trade" (lines 210-240): the script runs again, the
    trader is built on [st.session_state.user], the trade is placed unless
    the balance is under 1.0 and save_users(USERS) follows.  [amount] is
    what the number input returns. *)
Definition place_trade_click (amount : num) (prediction : string)
    (reply : http_reply num) (draw : nat) (now : string) (w : World num)
    : option (World num) :=
  w ← rerun w;
  match session_user w with
  | None => Some w
  | Some r =>
      user ← objects w !! r;
      if num_gt (num_of_Z 1) (balance user) then Some w
      else
        let trader := mkTradingSystem r in
        Some (save_users
                (TradingSystem_place_trade trader amount prediction reply
                   draw now w).1)
  end.

End Runs.

(** ** Further concrete inputs *)

(** alice right after she registered. *)
Definition world_registered : World float :=
  run [LoginOrCreate "alice" "secret" "alice@example.com" "demo" "$2b$12$"]
      empty_world.

(** Her first trade, on the object the session holds. *)
Definition first_trade : op float :=
  PlaceTrade (mkTradingSystem 0) 100%float "up" feed_down 0
             "2024-01-02 16:00:01.000000".

(** A feed with a single price point. *)
Definition feed_one_point : http_reply float :=
  Body (JObj
    [("Time Series (1min)", JObj
        [("2024-01-02 16:00:00", JObj [("4. close", JStr "472.65")])])]).

(** A file with one complete record and one without balance. *)
Definition broken_file : json float :=
  JObj [("dave", JObj [("account_type", JStr "demo"); ("balance", JNum 10%float)]);
        ("erin", JObj [("account_type", JStr "real")])].

(** bob registers after alice. *)
Definition register_bob : op float :=
  LoginOrCreate "bob" "hunter2" "bob@example.com" "real" "$2b$12$".

Definition world_two : World float := run [register_bob] world_alice.

(** The record of a trade with its keys in another order. *)
Definition shuffled_trade : list (string * json float) :=
  [("result", JStr "up"); ("amount", JNum 5%float); ("prediction", JStr "down")].

(** Splits the membership of a key in a list that is written out. *)
Ltac split_keys :=
  repeat match goal with
         | H : _ ∈ _ :: _ |- _ => apply elem_of_cons in H as [->|H]
         | H : _ ∈ [] |- _ => apply elem_of_nil in H as []
         end.

(** * Properties *)

(** ** The market oracle *)

Section Oracle.
Context {num : Type} `{!PyNumber num} `{!PyFloatConv num}.

Lemma random_choice_up_down (draw : nat) :
  random_choice ["up"; "down"] draw
  = Some (if Nat.even draw then "up" else "down").
Proof.
  unfold random_choice; cbn [length].
  destruct (Nat.even draw) eqn:Hparity.
  - apply Nat.even_spec in Hparity as [k ->].
    rewrite Nat.mul_comm, Nat.Div0.mod_mul. reflexivity.
  - rewrite <- Nat.negb_odd in Hparity.
    apply negb_false_iff, Nat.odd_spec in Hparity as [k ->].
    rewrite Nat.add_comm, Nat.mul_comm, Nat.Div0.mod_add. reflexivity.
Qed.

Lemma trend_from_feed_up_down (reply : http_reply num) (trend : string) :
  trend_from_feed reply = Some trend → trend = "up" ∨ trend = "down".
Proof.
  destruct reply as [| |data]; cbn; try discriminate.
  intros Hfeed. simplify_option_eq.
  match goal with |- context [num_gt ?a ?b] => destruct (num_gt a b) end; auto.
Qed.

Lemma trend_from_feed_needs_series (d : list (string * json num)) :
  dict_get "Time Series (1min)" d = None → trend_from_feed (Body (JObj d)) = None.
Proof. intros Hkey. cbn. rewrite Hkey. reflexivity. Qed.

(** The oracle always answers, and with a direction. *)
Lemma market_trend_returns (reply : http_reply num) (draw : nat) :
  ∃ trend, get_real_market_trend reply draw = Some trend
           ∧ (trend = "up" ∨ trend = "down").
Proof.
  unfold get_real_market_trend.
  destruct (trend_from_feed reply) as [trend|] eqn:Hfeed.
  - exists trend. split; [reflexivity | eapply trend_from_feed_up_down, Hfeed].
  - rewrite random_choice_up_down. destruct (Nat.even draw); eauto.
Qed.

(** C7: get_real_market_trend returns "up" or "down" whatever the price feed
    does and never raises.  When the fetch fails (connection error, a body
    that is not JSON, a body without the time series such as a rate-limit
    note, or any other failure of the [try]) the answer is
    [random.choice(["up", "down"])]: each direction is listed once, an even
    draw gives "up" and an odd one "down". *)
Theorem get_real_market_trend_total (reply : http_reply num) (draw : nat) :
  (∃ trend, get_real_market_trend reply draw = Some trend
            ∧ (trend = "up" ∨ trend = "down"))
  ∧ (trend_from_feed reply = None →
       get_real_market_trend reply draw = random_choice ["up"; "down"] draw
       ∧ get_real_market_trend reply draw
         = Some (if Nat.even draw then "up" else "down"))
  ∧ trend_from_feed (ConnectionError (num := num)) = None
  ∧ trend_from_feed (NotJSON (num := num)) = None
  ∧ (∀ d, dict_get "Time Series (1min)" d = None →
          trend_from_feed (Body (JObj d)) = None).
Proof.
  split; [apply market_trend_returns|].
  split; [|split; [reflexivity|split; [reflexivity|]]].
  - intros Hfail. unfold get_real_market_trend. rewrite Hfail.
    split; [reflexivity | apply random_choice_up_down].
  - apply trend_from_feed_needs_series.
Qed.

End Oracle.

(** ** Accounts and the trading engine *)

Section Ledger.
Context {num : Type} `{!PyNumber num} `{!PyFloatConv num}.

Lemma update_balance_balance (u : User num) (delta : num) (now : string) :
  balance (update_balance u delta now) = num_add (balance u) delta.
Proof. reflexivity. Qed.



(** What one call of place_trade does, in one equation. *)
Lemma place_trade_unfold (u : User num) (amount : num) (prediction : string)
    (reply : http_reply num) (draw : nat) (now : string) :
  ∃ result, get_real_market_trend reply draw = Some result
    ∧ place_trade u amount prediction reply draw now
      = let trade := mkTrade amount prediction result in
        Some (update_balance (set_trades u (trades u ++ [trade]))
                             (trade_delta trade) now,
              (is_win trade, result, trade_delta trade)).
Proof.
  destruct (market_trend_returns reply draw) as (result & Hres & _).
  exists result. split; [exact Hres|].
  unfold place_trade, get_market_result. rewrite Hres. cbn.
  unfold trade_delta, is_win; cbn.
  destruct (String.eqb prediction result); reflexivity.
Qed.


(** C2: place_trade always returns; its flag is true exactly when the
    prediction equals the outcome of the oracle; the delta it returns and
    adds to the balance is [amount * 0.9] on a win and [-amount] otherwise. *)
Theorem place_trade_delta (u : User num) (amount : num) (prediction : string)
    (reply : http_reply num) (draw : nat) (now : string) :
  ∃ u' won result delta,
    place_trade u amount prediction reply draw now
      = Some (u', (won, result, delta))
    ∧ get_real_market_trend reply draw = Some result
    ∧ (won = true ↔ prediction = result)
    ∧ delta = (if won then num_mul amount num_0_9 else num_neg amount)
    ∧ balance u' = num_add (balance u) delta.
Proof.
  destruct (place_trade_unfold u amount prediction reply draw now)
    as (result & Hres & Hplace).
  rewrite Hplace; cbn zeta.
  eexists _, _, result, _. split; [reflexivity|].
  split; [exact Hres|].
  split; [apply String.eqb_eq|].
  split; reflexivity.
Qed.

(** C3: get_level depends on the number of trades only; it is Beginner up to
    10 trades, Intermediate from 11 to 30 and Pro from 31 on (the labels
    carry their badge), and it never goes down when the log grows. *)
Theorem get_level_thresholds (u : User num) :
  let n := length (trades u) in
  (n ≤ 10 → get_level u = "🔰 Beginner")
  ∧ (11 ≤ n ≤ 30 → get_level u = "🔥 Intermediate")
  ∧ (31 ≤ n → get_level u = "🌟 Pro")
  ∧ (∀ v : User num, length (trades v) = n → get_level v = get_level u)
  ∧ (∀ v : User num, n ≤ length (trades v) →
       level_rank (get_level u) ≤ level_rank (get_level v)).
Proof.
  cbn zeta. unfold get_level.
  repeat split.
  - intros Hn. destruct (Nat.leb_spec 31 (length (trades u))); [lia|].
    destruct (Nat.leb_spec 11 (length (trades u))); [lia|reflexivity].
  - intros Hn. destruct (Nat.leb_spec 31 (length (trades u))); [lia|].
    destruct (Nat.leb_spec 11 (length (trades u))); [reflexivity|lia].
  - intros Hn. destruct (Nat.leb_spec 31 (length (trades u))); [reflexivity|lia].
  - intros v ->. reflexivity.
  - intros v Hle.
    destruct (Nat.leb_spec 31 (length (trades u))),
             (Nat.leb_spec 31 (length (trades v)));
    destruct (Nat.leb_spec 11 (length (trades u))),
             (Nat.leb_spec 11 (length (trades v)));
    cbn; lia.
Qed.

(** Where addition is associative with a neutral element (exact decimals),
    adding the deltas one by one is adding their sum. *)
Lemma fold_left_add_sum (zero : num) :
  (∀ a b c, num_add (num_add a b) c = num_add a (num_add b c)) →
  (∀ a, num_add a zero = a) →
  ∀ deltas a,
    fold_left num_add deltas a = num_add a (fold_right num_add zero deltas).
Proof.
  intros Hassoc Hzero deltas.
  induction deltas as [|d deltas IH]; intros a; cbn.
  - symmetry. apply Hzero.
  - rewrite IH. apply Hassoc.
Qed.

(** C4: a sequence of trades on one account always completes; the final
    balance is the initial balance with the delta of every trade added, in
    order; the log grows by exactly one record per trade, the record of its
    amount, prediction and outcome, whose delta is the one returned. *)
Theorem place_trades_ledger (u : User num) (orders : list (order num)) :
  ∃ u' answers recorded,
    place_trades u orders = Some (u', answers)
    ∧ trades u' = trades u ++ recorded
    ∧ length recorded = length orders
    ∧ map amount recorded = map order_amount orders
    ∧ map prediction recorded = map order_prediction orders
    ∧ map result recorded = map (λ a, a.1.2) answers
    ∧ map trade_delta recorded = map snd answers
    ∧ balance u' = fold_left num_add (map trade_delta recorded) (balance u).
Proof.
  revert u. induction orders as [|o orders IH]; intros u.
  - exists u, [], []. cbn. rewrite app_nil_r. repeat split; reflexivity.
  - destruct (place_trade_unfold u (order_amount o) (order_prediction o)
                (order_reply o) (order_draw o) (order_now o))
      as (result & _ & Hplace).
    cbn zeta in Hplace.
    set (trade := mkTrade (order_amount o) (order_prediction o) result) in *.
    set (u1 := update_balance _ _ _) in Hplace.
    destruct (IH u1) as (u' & answers & recorded & Hrun & Hlog & Hlen
                         & Ham & Hpr & Hres & Hdelta & Hbal).
    exists u', ((is_win trade, result, trade_delta trade) :: answers),
           (trade :: recorded).
    split; [cbn; rewrite Hplace; cbn; rewrite Hrun; reflexivity|].
    split; [rewrite Hlog; subst u1; cbn; rewrite <- app_assoc; reflexivity|].
    split; [cbn; congruence|].
    split; [cbn; congruence|].
    split; [cbn; congruence|].
    split; [cbn; congruence|].
    split; [cbn; congruence|].
    rewrite Hbal. reflexivity.
Qed.

End Ledger.

(** ** Persistence *)

Section RoundTrip.
Context {num : Type} `{!PyNumber num}.

Lemma Trade_from_kwargs_vars (t : Trade num) :
  Trade_from_kwargs (trade_vars t) = Some t.
Proof. destruct t; reflexivity. Qed.

Lemma Snapshot_from_dict_dict (s : Snapshot num) :
  Snapshot_from_dict (snapshot_dict s) = Some s.
Proof. destruct s; reflexivity. Qed.

Lemma as_password_value (h : option string) :
  as_password (password_value (num := num) h) = Some h.
Proof. destruct h; reflexivity. Qed.

(** Reading back the record of a user gives the user, named by the key. *)
Lemma load_user_record (key : string) (u : User num) :
  load_user key (user_record u)
  = Some (mkUser key (account_type u) (hashed_password u) (balance u)
                 (trades u) (history u) (premium_unlocked u)).
Proof.
  destruct u as [name type hashed bal log hist premium].
  unfold load_user, user_record, get_or; cbn.
  rewrite as_password_value; cbn.
  rewrite (mapM_fmap_Some Trade_from_kwargs trade_vars)
    by apply Trade_from_kwargs_vars; cbn.
  rewrite (mapM_fmap_Some Snapshot_from_dict snapshot_dict)
    by apply Snapshot_from_dict_dict; cbn.
  reflexivity.
Qed.

Lemma load_users_saved (users : list (string * User num)) :
  load_users (Some (save_users_data users))
  = Some (map (λ '(key, u),
            (key, mkUser key (account_type u) (hashed_password u) (balance u)
                         (trades u) (history u) (premium_unlocked u))) users).
Proof.
  unfold load_users, save_users_data; cbn.
  apply mapM_Some_2.
  induction users as [|[key u] users IH]; cbn; constructor; [|exact IH].
  rewrite load_user_record. reflexivity.
Qed.

Lemma keyed_renamed (users : list (string * User num)) :
  Forall keyed users →
  map (λ '(key, u),
         (key, mkUser key (account_type u) (hashed_password u) (balance u)
                      (trades u) (history u) (premium_unlocked u))) users
  = users.
Proof.
  induction 1 as [|[key u] users Hkey _ IH]; cbn; [reflexivity|].
  rewrite IH. unfold keyed in Hkey; cbn in Hkey. subst key.
  destruct u; reflexivity.
Qed.

(** C5: loading what save_users wrote always succeeds and gives back the
    same usernames in the same order, each with the same account_type,
    balance, trades, history, hashed_password and premium_unlocked; when
    every account is stored under its own username, as the program stores
    them, the loaded population is the saved one. *)
Theorem save_load_roundtrip (users : list (string * User num)) :
  ∃ users',
    load_users (Some (save_users_data users)) = Some users'
    ∧ Forall2 same_account users users'
    ∧ (Forall keyed users → users' = users).
Proof.
  eexists. split; [apply load_users_saved|]. split.
  - induction users as [|[key u] users IH]; cbn; constructor; [|exact IH].
    repeat split.
  - apply keyed_renamed.
Qed.

(** A record without the hashed_password key loads with no credential. *)
Lemma load_user_legacy (key : string) (info : list (string * json num))
    (u : User num) :
  dict_get "hashed_password" info = None →
  load_user key (JObj info) = Some u →
  hashed_password u = None.
Proof.
  intros Hkey. unfold load_user, get_or; cbn. rewrite Hkey; cbn.
  intros Hload. simplify_option_eq. reflexivity.
Qed.

End RoundTrip.

(** ** The session: login, trades, checkout, unlock *)

Section Session.
Context {num : Type} `{!PyNumber num} `{!PyFloatConv num} `{!Bcrypt}.

Lemma dict_get_app_l {V : Type} (key : string) (d1 d2 : list (string * V)) (v : V) :
  dict_get key d1 = Some v → dict_get key (d1 ++ d2) = Some v.
Proof.
  induction d1 as [|[k x] d1 IH]; cbn; [discriminate|].
  destruct (String.eqb k key); auto.
Qed.

Lemma stays_unlocked_refl (u : User num) : stays_unlocked u u.
Proof. intros Hp. auto. Qed.

Lemma stays_unlocked_trans (u1 u2 u3 : User num) :
  stays_unlocked u1 u2 → stays_unlocked u2 u3 → stays_unlocked u1 u3.
Proof.
  unfold stays_unlocked. intros H12 H23 Hp.
  destruct (H12 Hp) as [Hp2 Ht2]. destruct (H23 Hp2) as [Hp3 Ht3].
  split; congruence.
Qed.

Lemma place_trade_keeps (u u' : User num) amount prediction reply draw now answer :
  place_trade u amount prediction reply draw now = Some (u', answer) →
  username u' = username u ∧ account_type u' = account_type u
  ∧ hashed_password u' = hashed_password u
  ∧ premium_unlocked u' = premium_unlocked u.
Proof.
  destruct (place_trade_unfold u amount prediction reply draw now)
    as (result & _ & ->).
  cbn zeta. intros [= <- _]. repeat split.
Qed.

(** The loop either changes nothing and answers False, or unlocks the
    account of [username], which was locked, saves and answers True. *)
Lemma scan_payments_cases (username : string) (data : list PaymentIntent)
    (w : World num) :
  scan_payments username data w = (w, false)
  ∨ ∃ r u, USERS_get w username = Some (r, u)
      ∧ premium_unlocked u = false
      ∧ scan_payments username data w
        = (save_users (set_objects w (<[r := unlocked u]> (objects w))), true).
Proof.
  induction data as [|payment rest IH]; cbn; [left; reflexivity|].
  destruct (String.eqb (status payment) "succeeded" && _); [|exact IH].
  destruct (USERS_get w username) as [[r u]|] eqn:Hget; [|exact IH].
  destruct (premium_unlocked u) eqn:Hp; cbn; [exact IH|].
  right. exists r, u. auto.
Qed.

Lemma check_payment_cases (username : string) (reply : stripe_list_reply)
    (w : World num) :
  check_payment_and_unlock username reply w = (w, false)
  ∨ ∃ r u, USERS_get w username = Some (r, u)
      ∧ premium_unlocked u = false
      ∧ check_payment_and_unlock username reply w
        = (save_users (set_objects w (<[r := unlocked u]> (objects w))), true).
Proof.
  destruct reply as [|data]; cbn; [left; reflexivity|].
  apply scan_payments_cases.
Qed.

Lemma USERS_get_inv (w : World num) (username : string) (r : nat) (u : User num) :
  USERS_get w username = Some (r, u) ↔
  dict_get username (USERS w) = Some r ∧ objects w !! r = Some u.
Proof.
  unfold USERS_get. split.
  - intros Hget. simplify_option_eq. auto.
  - intros [-> Hobj]; cbn. rewrite Hobj. reflexivity.
Qed.

(** No operation rebinds a username, removes an object or locks it again. *)
Lemma step_preserves (w : World num) (o : op num) :
  (∀ name r, dict_get name (USERS w) = Some r →
             dict_get name (USERS (step w o)) = Some r)
  ∧ (∀ r u, objects w !! r = Some u →
            ∃ u', objects (step w o) !! r = Some u' ∧ stays_unlocked u u').
Proof.
  assert (Hsame : ∀ w' : World num,
            USERS w' = USERS w → objects w' = objects w →
            (∀ name r, dict_get name (USERS w) = Some r →
                       dict_get name (USERS w') = Some r)
            ∧ (∀ r u, objects w !! r = Some u →
                      ∃ u', objects w' !! r = Some u' ∧ stays_unlocked u u')).
  { intros w' -> ->. split; [auto|].
    intros r u Hu. exists u. auto using stays_unlocked_refl. }
  destruct o as [username password email account_type salt
                |trader amount prediction reply draw now
                |user_email stripe_create
                |username reply
                |]; cbn [step].
  - unfold login_or_create.
    destruct (dict_get username (USERS w)) as [r0|] eqn:Hkey.
    + destruct (objects w !! r0) as [user0|]; [|apply Hsame; reflexivity].
      destruct (truthy_password _) as [hashed|]; [|apply Hsame; reflexivity].
      destruct (bcrypt_checkpw password hashed) as [[|]|];
        apply Hsame; reflexivity.
    + destruct (String.eqb password ""); [apply Hsame; reflexivity|].
      cbn. split.
      * intros name r Hname. apply dict_get_app_l, Hname.
      * intros r u Hu. exists u. split; [|apply stays_unlocked_refl].
        apply lookup_app_l_Some, Hu.
  - unfold TradingSystem_place_trade.
    destruct (objects w !! user trader) as [u0|] eqn:Hu0;
      [|apply Hsame; reflexivity].
    destruct (place_trade u0 amount prediction reply draw now)
      as [[u0' answer]|] eqn:Hplace; [|apply Hsame; reflexivity].
    cbn. split; [auto|].
    intros r u Hu. destruct (decide (user trader = r)) as [<-|Hne].
    + exists u0'. split.
      * apply list_lookup_insert_eq. eapply lookup_lt_Some, Hu0.
      * assert (u = u0) as -> by congruence.
        apply place_trade_keeps in Hplace as (_ & Htype & _ & Hprem).
        intros Hp. split; congruence.
    + exists u. split; [|apply stays_unlocked_refl].
      rewrite list_lookup_insert_ne by exact Hne. exact Hu.
  - unfold create_stripe_checkout_session.
    destruct (session_user w ≫= _) as [session|]; [|apply Hsame; reflexivity].
    destruct (stripe_create _); apply Hsame; reflexivity.
  - destruct (check_payment_cases username reply w)
      as [->|(r0 & u0 & Hget & Hlocked & ->)]; [apply Hsame; reflexivity|].
    apply USERS_get_inv in Hget as [_ Hu0].
    cbn. split; [auto|].
    intros r u Hu. destruct (decide (r0 = r)) as [<-|Hne].
    + exists (unlocked u0). split.
      * apply list_lookup_insert_eq. eapply lookup_lt_Some, Hu0.
      * assert (u = u0) as -> by congruence.
        intros Hp. congruence.
    + exists u. split; [|apply stays_unlocked_refl].
      rewrite list_lookup_insert_ne by exact Hne. exact Hu.
  - apply Hsame; reflexivity.
Qed.

Lemma run_preserves (ops : list (op num)) (w : World num) :
  (∀ name r, dict_get name (USERS w) = Some r →
             dict_get name (USERS (run ops w)) = Some r)
  ∧ (∀ r u, objects w !! r = Some u →
            ∃ u', objects (run ops w) !! r = Some u' ∧ stays_unlocked u u').
Proof.
  revert w. induction ops as [|o ops IH]; intros w; cbn.
  - split; [auto|]. intros r u Hu. exists u. auto using stays_unlocked_refl.
  - destruct (step_preserves w o) as [Hkeys Hobjs].
    destruct (IH (step w o)) as [Hkeys' Hobjs'].
    split; [auto|].
    intros r u Hu.
    destruct (Hobjs r u Hu) as (u1 & Hu1 & Hstay1).
    destruct (Hobjs' r u1 Hu1) as (u2 & Hu2 & Hstay2).
    exists u2. eauto using stays_unlocked_trans.
Qed.

(** A successful unlock sets the balance to 100 and leaves the history as
    it was: no snapshot is appended. *)
Lemma unlock_keeps_history (username : string) (reply : stripe_list_reply)
    (w w' : World num) :
  check_payment_and_unlock username reply w = (w', true) →
  ∃ r u, USERS_get w username = Some (r, u)
    ∧ USERS_get w' username = Some (r, unlocked u)
    ∧ balance (unlocked u) = num_of_Z 100
    ∧ history (unlocked u) = history u.
Proof.
  destruct (check_payment_cases username reply w)
    as [->|(r & u & Hget & _ & ->)]; [discriminate|].
  intros [= <-]. exists r, u. split; [exact Hget|].
  split; [|split; reflexivity].
  apply USERS_get_inv in Hget as [Hkey Hu].
  apply USERS_get_inv. split; [exact Hkey|]. cbn.
  apply list_lookup_insert_eq. eapply lookup_lt_Some, Hu.
Qed.

(** C6: after a call of check_payment_and_unlock that unlocked the account,
    and whatever operations follow (trades included), a second call
    answers False and changes nothing: the account is still unlocked and
    real, and its balance is not set to 100 again. *)
Theorem check_payment_and_unlock_idempotent (username : string)
    (reply1 reply2 : stripe_list_reply) (ops : list (op num))
    (w w1 : World num) :
  check_payment_and_unlock username reply1 w = (w1, true) →
  let w2 := run ops w1 in
  check_payment_and_unlock username reply2 w2 = (w2, false)
  ∧ ∃ r u1 u2,
      USERS_get w1 username = Some (r, u1)
      ∧ premium_unlocked u1 = true ∧ account_type u1 = "real"
      ∧ balance u1 = num_of_Z 100
      ∧ USERS_get w2 username = Some (r, u2)
      ∧ premium_unlocked u2 = true ∧ account_type u2 = "real".
Proof.
  intros Hfirst w2.
  apply unlock_keeps_history in Hfirst as (r & u & _ & Hget1 & Hbal & _).
  pose proof Hget1 as Hget1'.
  apply USERS_get_inv in Hget1' as [Hkey1 Hu1].
  destruct (run_preserves ops w1) as [Hkeys Hobjs].
  destruct (Hobjs r _ Hu1) as (u2 & Hu2 & Hstay).
  destruct (Hstay eq_refl) as [Hp2 Ht2].
  assert (Hget2 : USERS_get w2 username = Some (r, u2)).
  { apply USERS_get_inv. split; [apply Hkeys, Hkey1 | exact Hu2]. }
  split.
  - destruct (check_payment_cases username reply2 w2)
      as [->|(r' & u' & Hget' & Hlocked & _)]; [reflexivity|].
    fold w2 in Hget2. congruence.
  - exists r, (unlocked u), u2. repeat split; assumption.
Qed.

(** C8: create_stripe_checkout_session changes nothing: the store, USERS,
    the session and the file are the same after the call, whether it returns
    or raises; when the provider creates the session, the call returns the
    url of that session, created for 500 cents with the email and the
    username of the logged-in user. *)
Theorem create_checkout_no_state_change (user_email : string)
    (stripe_create : checkout_request → option string) (w : World num) :
  (create_stripe_checkout_session user_email stripe_create w).1 = w
  ∧ (∀ r session url,
       session_user w = Some r →
       objects w !! r = Some session →
       stripe_create (checkout_arguments user_email (username session)) = Some url →
       (create_stripe_checkout_session user_email stripe_create w).2
       = Returned url)
  ∧ (∀ email name, unit_amount (checkout_arguments email name) = 500%Z
                   ∧ customer_email (checkout_arguments email name) = email
                   ∧ metadata_username (checkout_arguments email name) = name).
Proof.
  unfold create_stripe_checkout_session. split; [|split].
  - destruct (session_user w ≫= _) as [session|]; [|reflexivity].
    destruct (stripe_create _); reflexivity.
  - intros r session url -> Hsession Hurl. cbn.
    rewrite Hsession, Hurl. reflexivity.
  - intros email name. repeat split.
Qed.

(** C9: a new User has premium_unlocked false, and no sequence of logins,
    trades, checkout creations, payment verifications and saves sets the
    flag of an account, or of any User object, back to false. *)
Theorem premium_flag_monotonic :
  (∀ username account_type hashed,
     premium_unlocked (User_init (num := num) username account_type hashed) = false)
  ∧ (∀ (ops : list (op num)) (w : World num) username r u,
       USERS_get w username = Some (r, u) →
       premium_unlocked u = true →
       ∃ u', USERS_get (run ops w) username = Some (r, u')
             ∧ premium_unlocked u' = true)
  ∧ (∀ (ops : list (op num)) (w : World num) r u,
       objects w !! r = Some u →
       premium_unlocked u = true →
       ∃ u', objects (run ops w) !! r = Some u' ∧ premium_unlocked u' = true).
Proof.
  split; [reflexivity|]. split.
  - intros ops w username r u Hget Hp.
    apply USERS_get_inv in Hget as [Hkey Hu].
    destruct (run_preserves ops w) as [Hkeys Hobjs].
    destruct (Hobjs r u Hu) as (u' & Hu' & Hstay).
    exists u'. split; [|apply Hstay, Hp].
    apply USERS_get_inv. auto.
  - intros ops w r u Hu Hp.
    destruct (run_preserves ops w) as [_ Hobjs].
    destruct (Hobjs r u Hu) as (u' & Hu' & Hstay).
    exists u'. split; [exact Hu'|apply Hstay, Hp].
Qed.

(** C10: an account whose hashed_password is None cannot log in: whatever
    the password, the handler answers "Incorrect password." without calling
    bcrypt, and the session, USERS and the objects stay as they were. *)
Theorem null_credential_rejected (w : World num) (username : string)
    (r : nat) (account : User num)
    (password email account_type salt : string) :
  dict_get username (USERS w) = Some r →
  objects w !! r = Some account →
  hashed_password account = None →
  login_or_create username password email account_type salt w
  = (save_users w, Returned IncorrectPassword)
  ∧ session_user (save_users w) = session_user w
  ∧ session_email (save_users w) = session_email w
  ∧ USERS (save_users w) = USERS w
  ∧ objects (save_users w) = objects w.
Proof.
  intros Hkey Haccount Hnull.
  unfold login_or_create. rewrite Hkey, Haccount, Hnull. cbn.
  repeat split.
Qed.

End Session.

(** ** Reachable states and the file *)

Section Restart.
Context {num : Type} `{!PyNumber num} `{!PyFloatConv num} `{!Bcrypt}.

Lemma live_references_same (w w' : World num) :
  USERS w' = USERS w → objects w' = objects w →
  live_references w → live_references w'.
Proof. unfold live_references. intros -> ->. auto. Qed.

Lemma live_references_update (w w' : World num) (r : nat) (u u' : User num) :
  USERS w' = USERS w → objects w' = <[r := u']> (objects w) →
  objects w !! r = Some u → username u' = username u →
  live_references w → live_references w'.
Proof.
  unfold live_references. intros -> -> Hu Hname Hlive.
  eapply Forall_impl; [exact Hlive|].
  intros [name r0] (u0 & Hu0 & Hname0); cbn in *.
  destruct (decide (r = r0)) as [<-|Hne].
  - exists u'. split; [|congruence].
    apply list_lookup_insert_eq. eapply lookup_lt_Some, Hu.
  - exists u0. rewrite list_lookup_insert_ne by exact Hne. auto.
Qed.

(** Every operation keeps the references of USERS live. *)
Lemma step_live_references (w : World num) (o : op num) :
  live_references w → live_references (step w o).
Proof.
  intros Hlive.
  destruct o as [username password email account_type salt
                |trader amount prediction reply draw now
                |user_email stripe_create
                |username reply
                |]; cbn [step].
  - unfold login_or_create.
    destruct (dict_get username (USERS w)) as [r0|] eqn:Hkey.
    + destruct (objects w !! r0) as [user0|]; [|exact Hlive].
      destruct (truthy_password _) as [hashed|];
        [|eapply live_references_same; [..|exact Hlive]; reflexivity].
      destruct (bcrypt_checkpw password hashed) as [[|]|];
        [eapply live_references_same; [..|exact Hlive]; reflexivity..
        |exact Hlive].
    + destruct (String.eqb password "");
        [eapply live_references_same; [..|exact Hlive]; reflexivity|].
      unfold live_references in *; cbn.
      apply Forall_app. split.
      * eapply Forall_impl; [exact Hlive|].
        intros [name r] (u & Hu & Hname); cbn in *.
        exists u. split; [apply lookup_app_l_Some, Hu | exact Hname].
      * apply Forall_singleton; cbn.
        exists (User_init username account_type
                          (Some (bcrypt_hashpw password salt))).
        split; [apply list_lookup_middle|]; reflexivity.
  - unfold TradingSystem_place_trade.
    destruct (objects w !! user trader) as [u0|] eqn:Hu0; [|exact Hlive].
    destruct (place_trade u0 amount prediction reply draw now)
      as [[u0' answer]|] eqn:Hplace; [|exact Hlive].
    apply place_trade_keeps in Hplace as (Hname & _).
    eapply live_references_update; [..|exact Hlive]; [reflexivity..|exact Hu0|exact Hname].
  - unfold create_stripe_checkout_session.
    destruct (session_user w ≫= _) as [session|]; [|exact Hlive].
    destruct (stripe_create _); exact Hlive.
  - destruct (check_payment_cases username reply w)
      as [->|(r0 & u0 & Hget & _ & ->)]; [exact Hlive|].
    apply USERS_get_inv in Hget as [_ Hu0].
    eapply live_references_update; [..|exact Hlive];
      [reflexivity..|exact Hu0|reflexivity].
  - eapply live_references_same; [..|exact Hlive]; reflexivity.
Qed.

Lemma run_live_references (ops : list (op num)) (w : World num) :
  live_references w → live_references (run ops w).
Proof.
  revert w. induction ops as [|o ops IH]; intros w Hlive; cbn; [exact Hlive|].
  apply IH, step_live_references, Hlive.
Qed.

(** With live references, [users.items()] has one item per entry of USERS,
    each stored under its own username. *)
Lemma live_items_keyed (w : World num) :
  live_references w →
  Forall keyed (USERS_items w) ∧ map fst (USERS_items w) = map fst (USERS w).
Proof.
  unfold live_references, USERS_items.
  induction (USERS w) as [|[name r] entries IH]; intros Hlive; cbn.
  - split; [constructor|reflexivity].
  - apply Forall_cons in Hlive as [(u & Hu & Hname) Hlive]; cbn in *.
    destruct (IH Hlive) as [Hkeyed Hkeys].
    rewrite Hu; cbn. split; [constructor; [exact Hname|exact Hkeyed]|].
    rewrite Hkeys. reflexivity.
Qed.

(** The objects [start] creates, read back through USERS. *)
Lemma items_of_fresh_objects (pre : list (User num))
    (users : list (string * User num)) :
  omap (λ '(name, r), u ← (pre ++ map snd users) !! r; Some (name, u))
       (imap (λ i '(name, _), (name, length pre + i)) users)
  = users.
Proof.
  revert pre. induction users as [|[name u] users IH]; intros pre; [reflexivity|].
  rewrite imap_cons; cbn.
  rewrite list_lookup_middle by lia; cbn. f_equal.
  etrans; [|apply (IH (pre ++ [u]))].
  rewrite <- app_assoc; cbn.
  f_equal. apply imap_ext. intros i [name' u'] _; cbn.
  rewrite length_app; cbn. f_equal. lia.
Qed.

Lemma load_user_username (key : string) (info : json num) (u : User num) :
  load_user key info = Some u → username u = key.
Proof.
  unfold load_user. intros Hload.
  repeat match type of Hload with
         | (?m ≫= _) = Some _ =>
             destruct m; cbn [mbind option_bind] in Hload; [|discriminate Hload]
         end.
  injection Hload as <-. reflexivity.
Qed.

Lemma load_users_keyed (file : option (json num))
    (users : list (string * User num)) :
  load_users file = Some users → Forall keyed users.
Proof.
  destruct file as [data|]; cbn; [|intros [= <-]; constructor].
  destruct (as_dict data) as [d|]; cbn; [|discriminate].
  intros Hload. apply mapM_Some_1 in Hload.
  induction Hload as [|[key info] [key' u] d users Hitem _ IH]; constructor;
    [|exact IH].
  cbn in Hitem. destruct (load_user key info) as [u0|] eqn:Hu0; [|discriminate].
  cbn in Hitem. injection Hitem as <- <-.
  eapply load_user_username, Hu0.
Qed.

(** The state the program starts in has live references. *)
Lemma start_live_references (file : option (json num)) (w : World num) :
  start file = Some w → live_references w.
Proof.
  unfold start. destruct (load_users file) as [users|] eqn:Hload; cbn;
    [|discriminate].
  intros [= <-]. apply load_users_keyed in Hload.
  unfold live_references; cbn.
  apply Forall_forall. intros [name r] Hin.
  apply elem_of_lookup_imap in Hin as (i & [name' u] & Heq & Hi).
  injection Heq as -> ->. cbn.
  exists u. split.
  - rewrite list_lookup_fmap, Hi. reflexivity.
  - rewrite Forall_forall in Hload.
    apply (Hload (name', u)). eapply list_elem_of_lookup_2, Hi.
Qed.

Lemma start_items (file : option (json num)) (w : World num) :
  start file = Some w → load_users file = Some (USERS_items w).
Proof.
  unfold start. destruct (load_users file) as [users|]; cbn; [|discriminate].
  intros [= <-]. unfold USERS_items; cbn. f_equal. symmetry.
  apply (items_of_fresh_objects [] users).
Qed.

(** Saving a reachable state and starting again from the file gives the
    same population. *)
Lemma restart_after_save (w : World num) :
  live_references w →
  ∃ w', start (data_file (save_users w)) = Some w'
        ∧ USERS_items w' = USERS_items w.
Proof.
  intros Hlive. apply live_items_keyed in Hlive as [Hkeyed _].
  pose proof (load_users_saved (USERS_items w)) as Hload.
  rewrite (keyed_renamed (USERS_items w) Hkeyed) in Hload.
  change (data_file (save_users w))
    with (Some (save_users_data (USERS_items w))).
  unfold start. rewrite Hload; cbn.
  eexists. split; [reflexivity|].
  unfold USERS_items at 1; cbn.
  apply (items_of_fresh_objects [] (USERS_items w)).
Qed.

End Restart.

(** ** The program on concrete inputs *)

(** A new demo account starts at 10000 as a Beginner; a lost trade of 100
    leaves 9900, one trade in the log and the same level. *)
Example alice_loses_100 :
  balance alice = 10000%float
  ∧ get_level alice = "🔰 Beginner"
  ∧ ∃ alice', place_trade alice 100%float "up" feed_down 0 "2024-01-02 16:00:01"
              = Some (alice', (false, "down", (-100)%float))
      ∧ balance alice' = 9900%float
      ∧ length (trades alice') = 1
      ∧ get_level alice' = "🔰 Beginner".
Proof. vm_compute. eauto 10. Qed.

(** A rate-limit note is a failed fetch: the draw decides. *)
Example rate_limited_feed_falls_back :
  trend_from_feed feed_rate_limited = None
  ∧ get_real_market_trend feed_rate_limited 0 = Some "up"
  ∧ get_real_market_trend feed_rate_limited 1 = Some "down".
Proof. vm_compute. auto. Qed.

Lemma check_payment_and_unlock_idempotent_witness :
  check_payment_and_unlock "alice" (paid_by "alice") world_alice
  = (world_alice_unlocked, true)
  ∧ (let w2 := run trade_after_unlock world_alice_unlocked in
     check_payment_and_unlock "alice" (paid_by "alice") w2 = (w2, false)
     ∧ ∃ r u1 u2,
         USERS_get world_alice_unlocked "alice" = Some (r, u1)
         ∧ premium_unlocked u1 = true ∧ account_type u1 = "real"
         ∧ balance u1 = num_of_Z 100
         ∧ USERS_get w2 "alice" = Some (r, u2)
         ∧ premium_unlocked u2 = true ∧ account_type u2 = "real").
Proof.
  split; [vm_compute; reflexivity|].
  apply (check_payment_and_unlock_idempotent "alice" (paid_by "alice")
           (paid_by "alice") trade_after_unlock world_alice).
  vm_compute; reflexivity.
Defined.

(** The balance alice won after the unlock survives the second call. *)
Example second_unlock_keeps_balance :
  let w2 := run trade_after_unlock world_alice_unlocked in
  let w3 := (check_payment_and_unlock "alice" (paid_by "alice") w2).1 in
  (balance <$> objects w2 !! 0) = Some 109%float
  ∧ (balance <$> objects w3 !! 0) = Some 109%float.
Proof. vm_compute. auto. Qed.

Lemma null_credential_rejected_witness :
  ∃ w, start (Some legacy_file) = Some w
    ∧ dict_get "carol" (USERS w) = Some 0
    ∧ (hashed_password <$> objects w !! 0) = Some None
    ∧ login_or_create "carol" "" "carol@example.com" "demo" "$2b$12$" w
      = (save_users w, Returned IncorrectPassword)
    ∧ login_or_create "carol" "guess" "carol@example.com" "demo" "$2b$12$" w
      = (save_users w, Returned IncorrectPassword).
Proof.
  eexists. split; [vm_compute; reflexivity|].
  split; [vm_compute; reflexivity|].
  split; [vm_compute; reflexivity|].
  split.
  - eapply (null_credential_rejected _ "carol" 0); vm_compute; reflexivity.
  - eapply (null_credential_rejected _ "carol" 0); vm_compute; reflexivity.
Defined.

(** In binary64 the order of the additions shows: the balance is the initial
    balance with the deltas added one by one, which here differs in the last
    place from the initial balance plus the separately computed sum. *)
Example float_sum_order_matters :
  ∃ alice' answers,
    place_trades alice two_orders = Some (alice', answers)
    ∧ map snd answers = [0.9%float; (-7.7)%float]
    ∧ balance alice' = 9993.199999999999%float
    ∧ balance alice' = fold_left num_add (map snd answers) (balance alice)
    ∧ num_add (balance alice) (fold_left num_add (map snd answers) 0%float)
      = 9993.2%float
    ∧ balance alice' ≠ 9993.2%float.
Proof.
  eexists _, _. split; [vm_compute; reflexivity|].
  repeat split; try (vm_compute; reflexivity).
  vm_compute. intros Hsame. discriminate Hsame.
Qed.

(** The population of a running session survives a save and a restart. *)
Example restart_keeps_alice :
  load_users (data_file (save_users world_alice_unlocked))
  = Some (USERS_items world_alice_unlocked).
Proof. vm_compute. reflexivity. Qed.

(** * Further properties of the code *)

(** ** The price feed *)

Section Feed.
Context {num : Type} `{!PyNumber num} `{!PyFloatConv num}.

(** X1: when the reply holds a time series whose first two entries carry a
    closing price [float] accepts, get_real_market_trend answers from the
    feed alone, whatever the draw: "up" when the first close is greater
    than the second, "down" otherwise (equal closes included). *)
Theorem well_formed_feed_decides (d : list (string * json num))
    (t0 t1 : string) (e0 e1 : list (string * json num))
    (rest : list (string * json num)) (v0 v1 : json num) (c0 c1 : num)
    (draw : nat) :
  dict_get "Time Series (1min)" d
    = Some (JObj ((t0, JObj e0) :: (t1, JObj e1) :: rest)) →
  t0 ≠ t1 →
  dict_get "4. close" e0 = Some v0 → py_float v0 = Some c0 →
  dict_get "4. close" e1 = Some v1 → py_float v1 = Some c1 →
  get_real_market_trend (Body (JObj d)) draw
  = Some (if num_gt c0 c1 then "up" else "down").
Proof.
  intros Hseries Hne Hv0 Hc0 Hv1 Hc1.
  unfold get_real_market_trend, trend_from_feed, subscript; cbn.
  rewrite Hseries; cbn.
  rewrite String.eqb_refl; cbn.
  apply String.eqb_neq in Hne. rewrite Hne, String.eqb_refl; cbn.
  rewrite Hv0; cbn. rewrite Hc0; cbn. rewrite Hv1; cbn. rewrite Hc1; cbn.
  reflexivity.
Qed.

(** X2: a time series with fewer than two entries cannot be compared: the
    [try] fails on the missing index and the answer is the draw's. *)
Theorem short_series_falls_back (d series : list (string * json num))
    (draw : nat) :
  dict_get "Time Series (1min)" d = Some (JObj series) →
  length series < 2 →
  trend_from_feed (Body (JObj d)) = None
  ∧ get_real_market_trend (Body (JObj d)) draw
    = Some (if Nat.even draw then "up" else "down").
Proof.
  intros Hseries Hshort.
  assert (Hfail : trend_from_feed (Body (JObj d)) = None).
  { unfold trend_from_feed, subscript; cbn. rewrite Hseries; cbn.
    destruct series as [|[t0 e0] [|entry series]]; cbn in *; [reflexivity| |lia].
    rewrite String.eqb_refl; cbn. destruct (as_dict e0); reflexivity. }
  split; [exact Hfail|].
  unfold get_real_market_trend. rewrite Hfail. apply random_choice_up_down.
Qed.

End Feed.

(** ** Reading users.json *)

Section Loading.
Context {num : Type} `{!PyNumber num}.

Lemma load_user_needs_keys (key : string) (info : list (string * json num)) :
  dict_get "balance" info = None ∨ dict_get "account_type" info = None →
  load_user key (JObj info) = None.
Proof.
  unfold load_user; cbn. intros [Hmissing|Hmissing]; rewrite Hmissing; cbn.
  - destruct (dict_get "account_type" info ≫= as_str); cbn; [|reflexivity].
    destruct (get_or "hashed_password" info as_password None); reflexivity.
  - reflexivity.
Qed.

(** X3: one record without "balance" or without "account_type" makes the
    whole load fail (KeyError), however many good records the file holds. *)
Theorem load_users_missing_key_fails (data : list (string * json num))
    (i : nat) (key : string) (info : list (string * json num)) :
  data !! i = Some (key, JObj info) →
  dict_get "balance" info = None ∨ dict_get "account_type" info = None →
  load_users (Some (JObj data)) = None.
Proof.
  intros Hitem Hmissing. cbn.
  apply mapM_None_2, Exists_exists.
  exists (key, JObj info). split; [eapply list_elem_of_lookup_2, Hitem|].
  cbv beta iota. rewrite (load_user_needs_keys key info Hmissing). reflexivity.
Qed.

(** X4: a record that only has "account_type" and "balance" loads with the
    defaults: no trades, no history, no credential, premium locked; the
    balance is the one of the file, not the starting stake of the tier. *)
Theorem load_user_defaults (key : string) (info : list (string * json num))
    (tier : string) (amount : num) :
  dict_get "account_type" info = Some (JStr tier) →
  dict_get "balance" info = Some (JNum amount) →
  dict_get "trades" info = None →
  dict_get "history" info = None →
  dict_get "hashed_password" info = None →
  dict_get "premium_unlocked" info = None →
  load_user key (JObj info) = Some (mkUser key tier None amount [] [] false).
Proof.
  intros Htier Hbalance Htrades Hhistory Hhashed Hpremium.
  unfold load_user, get_or; cbn.
  rewrite Htier, Hbalance, Htrades, Hhistory, Hhashed, Hpremium. reflexivity.
Qed.

(** X5: what load_users returns is a fixed point of save and load: saving
    the loaded population and loading again gives exactly it. *)
Theorem load_save_load (file : option (json num))
    (users : list (string * User num)) :
  load_users file = Some users →
  load_users (Some (save_users_data users)) = Some users.
Proof.
  intros Hload. rewrite load_users_saved.
  f_equal. apply keyed_renamed. eapply load_users_keyed, Hload.
Qed.

End Loading.

(** ** What the operations keep *)

Section Keeps.
Context {num : Type} `{!PyNumber num} `{!PyFloatConv num} `{!Bcrypt}.

(** A trade adds one record and one snapshot at the end and touches neither
    the username nor the credential. *)
Lemma place_trade_extends (u u' : User num) amount prediction reply draw now answer :
  place_trade u amount prediction reply draw now = Some (u', answer) →
  username u' = username u ∧ hashed_password u' = hashed_password u
  ∧ trades u `prefix_of` trades u' ∧ history u `prefix_of` history u'.
Proof.
  destruct (place_trade_unfold u amount prediction reply draw now)
    as (result & _ & ->).
  cbn zeta. intros [= <- _]. cbn.
  repeat split; eexists; reflexivity.
Qed.

(** How one operation changes the store: not at all, by one new object at
    the end, or by writing back one object after a trade or an unlock. *)
Lemma step_objects (w : World num) (o : op num) :
  objects (step w o) = objects w
  ∨ (∃ u, objects (step w o) = objects w ++ [u])
  ∨ (∃ r u u', objects w !! r = Some u
       ∧ objects (step w o) = <[r := u']> (objects w)
       ∧ username u' = username u ∧ hashed_password u' = hashed_password u
       ∧ trades u `prefix_of` trades u' ∧ history u `prefix_of` history u').
Proof.
  destruct o as [username password email account_type salt
                |trader amount prediction reply draw now
                |user_email stripe_create
                |username reply
                |]; cbn [step].
  - unfold login_or_create.
    destruct (dict_get username (USERS w)) as [r0|].
    + destruct (objects w !! r0) as [user0|]; [|left; reflexivity].
      destruct (truthy_password _) as [hashed|]; [|left; reflexivity].
      destruct (bcrypt_checkpw password hashed) as [[|]|]; left; reflexivity.
    + destruct (String.eqb password ""); [left; reflexivity|].
      right; left. eexists. reflexivity.
  - unfold TradingSystem_place_trade.
    destruct (objects w !! user trader) as [u0|] eqn:Hu0; [|left; reflexivity].
    destruct (place_trade u0 amount prediction reply draw now)
      as [[u0' answer]|] eqn:Hplace; [|left; reflexivity].
    right; right. exists (user trader), u0, u0'.
    split; [exact Hu0|]. split; [reflexivity|].
    eapply place_trade_extends, Hplace.
  - unfold create_stripe_checkout_session.
    destruct (session_user w ≫= _) as [session|]; [|left; reflexivity].
    destruct (stripe_create _); left; reflexivity.
  - destruct (check_payment_cases username reply w)
      as [->|(r0 & u0 & Hget & _ & ->)]; [left; reflexivity|].
    apply USERS_get_inv in Hget as [_ Hu0].
    right; right. exists r0, u0, (unlocked u0).
    split; [exact Hu0|]. split; [reflexivity|].
    cbn. repeat split; reflexivity.
  - left; reflexivity.
Qed.

Lemma step_extends (w : World num) (o : op num) (r : nat) (u : User num) :
  objects w !! r = Some u →
  ∃ u', objects (step w o) !! r = Some u'
    ∧ username u' = username u ∧ hashed_password u' = hashed_password u
    ∧ trades u `prefix_of` trades u' ∧ history u `prefix_of` history u'.
Proof.
  intros Hu.
  destruct (step_objects w o)
    as [->|[(v & ->)|(r0 & u0 & u0' & Hu0 & -> & Hkeeps)]].
  - exists u. repeat split; [exact Hu|reflexivity..].
  - exists u. repeat split; [apply lookup_app_l_Some, Hu|reflexivity..].
  - destruct (decide (r0 = r)) as [<-|Hne].
    + exists u0'. assert (u = u0) as -> by congruence.
      split; [|exact Hkeeps].
      apply list_lookup_insert_eq. eapply lookup_lt_Some, Hu0.
    + exists u. rewrite list_lookup_insert_ne by exact Hne.
      repeat split; [exact Hu|reflexivity..].
Qed.

Lemma run_extends (ops : list (op num)) (w : World num) (r : nat) (u : User num) :
  objects w !! r = Some u →
  ∃ u', objects (run ops w) !! r = Some u'
    ∧ username u' = username u ∧ hashed_password u' = hashed_password u
    ∧ trades u `prefix_of` trades u' ∧ history u `prefix_of` history u'.
Proof.
  revert w u. induction ops as [|o ops IH]; intros w u Hu; cbn.
  - exists u. repeat split; [exact Hu|reflexivity..].
  - destruct (step_extends w o r u Hu) as (u1 & Hu1 & Hn1 & Hh1 & Ht1 & Hs1).
    destruct (IH _ u1 Hu1) as (u2 & Hu2 & Hn2 & Hh2 & Ht2 & Hs2).
    exists u2. split; [exact Hu2|].
    repeat split; [congruence|congruence|by etrans|by etrans].
Qed.

(** X6: the trade log and the balance history are append-only: whatever
    operations run, every object keeps the trades and snapshots it had, in
    place, and can only gain new ones after them. *)
Theorem logs_append_only (ops : list (op num)) (w : World num)
    (r : nat) (u : User num) :
  objects w !! r = Some u →
  ∃ u' new_trades new_snapshots,
    objects (run ops w) !! r = Some u'
    ∧ trades u' = trades u ++ new_trades
    ∧ history u' = history u ++ new_snapshots.
Proof.
  intros Hu.
  destruct (run_extends ops w r u Hu)
    as (u' & Hu' & _ & _ & (new_trades & Ht) & (new_snapshots & Hs)).
  exists u', new_trades, new_snapshots. auto.
Qed.

(** X7: no operation renames an account or changes its credential: the
    username and the password hash of every object stay what they were. *)
Theorem identity_never_changes (ops : list (op num)) (w : World num)
    (r : nat) (u : User num) :
  objects w !! r = Some u →
  ∃ u', objects (run ops w) !! r = Some u'
    ∧ username u' = username u
    ∧ hashed_password u' = hashed_password u.
Proof.
  intros Hu.
  destruct (run_extends ops w r u Hu) as (u' & Hu' & Hname & Hhash & _).
  exists u'. auto.
Qed.

Lemma get_level_mono (u v : User num) :
  length (trades u) ≤ length (trades v) →
  level_rank (get_level u) ≤ level_rank (get_level v).
Proof.
  intros Hle. unfold get_level.
  destruct (Nat.leb_spec 31 (length (trades u))),
           (Nat.leb_spec 31 (length (trades v)));
  destruct (Nat.leb_spec 11 (length (trades u))),
           (Nat.leb_spec 11 (length (trades v)));
  cbn; lia.
Qed.

(** X8: the level of an account never drops, whatever operations run. *)
Theorem level_never_drops (ops : list (op num)) (w : World num)
    (r : nat) (u : User num) :
  objects w !! r = Some u →
  ∃ u', objects (run ops w) !! r = Some u'
    ∧ level_rank (get_level u) ≤ level_rank (get_level u').
Proof.
  intros Hu.
  destruct (run_extends ops w r u Hu) as (u' & Hu' & _ & _ & Ht & _).
  exists u'. split; [exact Hu'|].
  apply get_level_mono, prefix_length, Ht.
Qed.

Lemma dict_get_None_keys {V : Type} (key : string) (d : list (string * V)) :
  dict_get key d = None → key ∉ map fst d.
Proof.
  induction d as [|[k v] d IH]; cbn; [intros _; apply not_elem_of_nil|].
  destruct (String.eqb_spec k key) as [->|Hne]; [discriminate|].
  intros Hrest. apply not_elem_of_cons. split; [congruence|auto].
Qed.

(** How one operation changes USERS: not at all, or by one entry for a
    username that was not a key. *)
Lemma step_USERS (w : World num) (o : op num) :
  USERS (step w o) = USERS w
  ∨ ∃ name r, dict_get name (USERS w) = None
      ∧ USERS (step w o) = USERS w ++ [(name, r)].
Proof.
  destruct o as [username password email account_type salt
                |trader amount prediction reply draw now
                |user_email stripe_create
                |username reply
                |]; cbn [step].
  - unfold login_or_create.
    destruct (dict_get username (USERS w)) as [r0|] eqn:Hkey.
    + destruct (objects w !! r0) as [user0|]; [|left; reflexivity].
      destruct (truthy_password _) as [hashed|]; [|left; reflexivity].
      destruct (bcrypt_checkpw password hashed) as [[|]|]; left; reflexivity.
    + destruct (String.eqb password ""); [left; reflexivity|].
      right. exists username, (length (objects w)). auto.
  - unfold TradingSystem_place_trade.
    destruct (objects w !! user trader) as [u0|]; [|left; reflexivity].
    destruct (place_trade u0 amount prediction reply draw now)
      as [[u0' answer]|]; left; reflexivity.
  - unfold create_stripe_checkout_session.
    destruct (session_user w ≫= _) as [session|]; [|left; reflexivity].
    destruct (stripe_create _); left; reflexivity.
  - destruct (check_payment_cases username reply w)
      as [->|(r0 & u0 & _ & _ & ->)]; left; reflexivity.
  - left; reflexivity.
Qed.

(** X9: usernames stay unique: when the keys of USERS are distinct they
    are still distinct after any operations; the login handler never adds a
    second entry for a username. *)
Theorem usernames_stay_unique (ops : list (op num)) (w : World num) :
  NoDup (map fst (USERS w)) → NoDup (map fst (USERS (run ops w))).
Proof.
  revert w. induction ops as [|o ops IH]; intros w Hdistinct; cbn;
    [exact Hdistinct|].
  apply IH.
  destruct (step_USERS w o) as [->|(name & r & Hfresh & ->)];
    [exact Hdistinct|].
  rewrite map_app; cbn. apply NoDup_app. split; [exact Hdistinct|].
  split; [|apply NoDup_singleton].
  intros key Hin Hnew. apply list_elem_of_singleton in Hnew as ->.
  eapply dict_get_None_keys; eassumption.
Qed.

End Keeps.

(** ** Sessions that start from the file *)

Section Sessions.
Context {num : Type} `{!PyNumber num} `{!PyFloatConv num} `{!Bcrypt}.

(** X10: in every state a session reaches from the start of the program,
    each entry of USERS refers to an object of the store, and that object
    carries the username it is stored under. *)
Theorem reachable_live_references (file : option (json num))
    (w0 : World num) (ops : list (op num)) :
  start file = Some w0 → live_references (run ops w0).
Proof.
  intros Hstart. apply run_live_references.
  eapply start_live_references, Hstart.
Qed.

(** X11: nothing is lost over a restart: saving any state a session reaches
    and starting the program again from the file gives the same usernames,
    in the same order, with the same accounts. *)
Theorem reachable_restart (file : option (json num)) (w0 : World num)
    (ops : list (op num)) :
  start file = Some w0 →
  ∃ w', start (data_file (save_users (run ops w0))) = Some w'
        ∧ USERS_items w' = USERS_items (run ops w0).
Proof.
  intros Hstart. apply restart_after_save, run_live_references.
  eapply start_live_references, Hstart.
Qed.

Lemma scan_payments_answer (username : string) (data : list PaymentIntent)
    (w : World num) :
  (scan_payments username data w).2
  = existsb (pays_for username) data
    && match USERS_get w username with
       | Some (_, account) => negb (premium_unlocked account)
       | None => false
       end.
Proof.
  induction data as [|payment rest IH]; [reflexivity|].
  cbn [scan_payments existsb]. fold (pays_for username payment).
  destruct (pays_for username payment); cbn [orb]; [|exact IH].
  destruct (USERS_get w username) as [[r account]|] eqn:Hget.
  - destruct (premium_unlocked account); cbn [negb].
    + rewrite IH. apply andb_false_r.
    + reflexivity.
  - rewrite IH. apply andb_false_r.
Qed.

(** X12: check_payment_and_unlock answers True exactly when the listing
    holds a payment with status "succeeded" whose metadata names the user,
    the user is in USERS and the account is still locked; a failing Stripe
    call answers False. *)
Theorem check_payment_answer (username : string) (w : World num) :
  (∀ data,
     (check_payment_and_unlock username (PaymentList data) w).2
     = existsb (pays_for username) data
       && match USERS_get w username with
          | Some (_, account) => negb (premium_unlocked account)
          | None => false
          end)
  ∧ (check_payment_and_unlock username PaymentListError w).2 = false.
Proof.
  split; [|reflexivity]. intros data. apply scan_payments_answer.
Qed.

(** X13: a call that answers True rewrites one object only, the account of
    the user: its flag, tier and balance become True, "real" and 100
    whatever they were; its username, credential, trades and history, every
    other object, USERS and the session are untouched; and the file holds
    the new population. *)
Theorem check_payment_effect (name : string) (reply : stripe_list_reply)
    (w w' : World num) :
  check_payment_and_unlock name reply w = (w', true) →
  ∃ r account,
    USERS_get w name = Some (r, account)
    ∧ objects w' = <[r := mkUser (username account) "real"
                           (hashed_password account) (num_of_Z 100)
                           (trades account) (history account) true]>
                   (objects w)
    ∧ (∀ r', r' ≠ r → objects w' !! r' = objects w !! r')
    ∧ USERS w' = USERS w
    ∧ session_user w' = session_user w
    ∧ session_email w' = session_email w
    ∧ data_file w' = Some (save_users_data (USERS_items w')).
Proof.
  destruct (check_payment_cases name reply w)
    as [->|(r & account & Hget & _ & ->)]; [discriminate|].
  intros [= <-]. exists r, account.
  split; [exact Hget|]. split; [reflexivity|].
  split; [|repeat split].
  intros r' Hne. cbn. apply list_lookup_insert_ne. congruence.
Qed.

(** X14: a call that does not answer True changes nothing at all. *)
Theorem check_payment_false_changes_nothing (username : string)
    (reply : stripe_list_reply) (w w' : World num) :
  check_payment_and_unlock username reply w = (w', false) → w' = w.
Proof.
  destruct (check_payment_cases username reply w)
    as [->|(r & account & _ & _ & ->)]; [|discriminate].
  intros [= <-]. reflexivity.
Qed.

Lemma USERS_get_items (w : World num) (username : string) (r : nat)
    (account : User num) :
  USERS_get w username = Some (r, account) →
  dict_get username (USERS_items w) = Some account.
Proof.
  unfold USERS_get, USERS_items.
  induction (USERS w) as [|[name r0] entries IH]; cbn; [discriminate|].
  destruct (String.eqb name username) eqn:Hname; cbn.
  - destruct (objects w !! r0) as [u0|]; cbn; [|discriminate].
    rewrite Hname. congruence.
  - intros Hrest. destruct (objects w !! r0) as [u0|]; cbn; [|auto].
    rewrite Hname. auto.
Qed.

(** X15: an unlock survives a restart: after a call that answers True from
    a state with live references, the program started again from the file
    finds the account premium, real and with a balance of 100. *)
Theorem unlock_survives_restart (username : string)
    (reply : stripe_list_reply) (w w' : World num) :
  live_references w →
  check_payment_and_unlock username reply w = (w', true) →
  ∃ w'' account,
    start (data_file w') = Some w''
    ∧ dict_get username (USERS_items w'') = Some account
    ∧ premium_unlocked account = true
    ∧ account_type account = "real"
    ∧ balance account = num_of_Z 100.
Proof.
  intros Hlive Hcheck.
  assert (Hlive' : live_references w').
  { change w' with (w', true).1. rewrite <- Hcheck.
    apply (step_live_references w (CheckPayment username reply) Hlive). }
  pose proof (unlock_keeps_history _ _ _ _ Hcheck)
    as (r & u & _ & Hget' & Hbal & _).
  destruct (check_payment_cases username reply w)
    as [Hsame|(r0 & u0 & _ & _ & Hunlock)]; [congruence|].
  destruct (restart_after_save w' Hlive') as (w'' & Hstart & Hitems).
  assert (Hfile : data_file (save_users w') = data_file w').
  { rewrite Hunlock in Hcheck. injection Hcheck as <-. reflexivity. }
  rewrite Hfile in Hstart.
  exists w'', (unlocked u). split; [exact Hstart|].
  rewrite Hitems. split; [eapply USERS_get_items, Hget'|].
  repeat split.
Qed.

End Sessions.

(** ** The ledger of one account *)

Section History.
Context {num : Type} `{!PyNumber num} `{!PyFloatConv num}.

(** X16: the history is the running balance: a sequence of trades appends
    one snapshot per trade, stamped with the time of that trade and holding
    the balance right after it. *)
Theorem history_is_running_balance (u : User num) (orders : list (order num)) :
  ∃ u' answers,
    place_trades u orders = Some (u', answers)
    ∧ history u'
      = history u ++ zip_with mkSnapshot (map order_now orders)
                       (running_balances (balance u) (map snd answers)).
Proof.
  revert u. induction orders as [|o orders IH]; intros u.
  - exists u, []. cbn. rewrite app_nil_r. auto.
  - destruct (place_trade_unfold u (order_amount o) (order_prediction o)
                (order_reply o) (order_draw o) (order_now o))
      as (result & _ & Hplace).
    cbn zeta in Hplace.
    set (trade := mkTrade (order_amount o) (order_prediction o) result) in *.
    set (u1 := update_balance _ _ _) in Hplace.
    destruct (IH u1) as (u' & answers & Hrun & Hhistory).
    exists u', ((is_win trade, result, trade_delta trade) :: answers).
    split; [cbn; rewrite Hplace; cbn; rewrite Hrun; reflexivity|].
    rewrite Hhistory. subst u1. cbn. rewrite <- app_assoc. reflexivity.
Qed.

End History.

(** ** Reading a trade *)

Section Kwargs.
Context {num : Type} `{!PyNumber num}.

Lemma dict_get_Some_keys {V : Type} (key : string) (d : list (string * V)) (v : V) :
  dict_get key d = Some v → key ∈ map fst d.
Proof.
  induction d as [|[k x] d IH]; cbn; [discriminate|].
  destruct (String.eqb_spec k key) as [->|Hne].
  - intros _. apply elem_of_cons. auto.
  - intros Hrest. apply elem_of_cons. auto.
Qed.

(** X17: a trade is read only from a dict whose keys are exactly amount,
    prediction and result, in any order: a missing key or one key more
    (a stored "is_win", say) is refused, as the constructor raises
    TypeError; the trade read holds the three values. *)
Theorem Trade_from_kwargs_exact_keys (kw : list (string * json num))
    (t : Trade num) :
  Trade_from_kwargs (JObj kw) = Some t →
  map fst kw ≡ₚ ["amount"; "prediction"; "result"]
  ∧ dict_get "amount" kw = Some (JNum (amount t))
  ∧ dict_get "prediction" kw = Some (JStr (prediction t))
  ∧ dict_get "result" kw = Some (JStr (result t)).
Proof.
  unfold Trade_from_kwargs; cbn.
  destruct (Nat.eqb_spec (length kw) 3) as [Hlen|]; cbn; [|discriminate].
  destruct (dict_get "amount" kw) as [[| |a| | |]|] eqn:Ha; cbn; try discriminate.
  destruct (dict_get "prediction" kw) as [[| | |p| |]|] eqn:Hp; cbn;
    try discriminate.
  destruct (dict_get "result" kw) as [[| | |r| |]|] eqn:Hr; cbn;
    try discriminate.
  intros [= <-]. cbn. split; [|auto].
  symmetry. apply submseteq_length_Permutation.
  - apply NoDup_submseteq.
    + repeat (apply NoDup_cons; split;
              [rewrite ?elem_of_cons, elem_of_nil; intros Hin;
               repeat destruct Hin as [Hin|Hin]; (discriminate || exact Hin)|]).
      apply NoDup_nil_2.
    + intros key Hin.
      repeat (apply elem_of_cons in Hin as [->|Hin];
              [eapply dict_get_Some_keys; eassumption|]).
      apply elem_of_nil in Hin as [].
  - rewrite length_map, Hlen. cbn. lia.
Qed.

End Kwargs.

(** ** Logging in *)

Section Login.
Context {num : Type} `{!PyNumber num} `{!PyFloatConv num} `{!Bcrypt}.

Lemma dict_get_app_r {V : Type} (key : string) (d1 d2 : list (string * V)) :
  dict_get key d1 = None → dict_get key (d1 ++ d2) = dict_get key d2.
Proof.
  induction d1 as [|[k x] d1 IH]; cbn; [reflexivity|].
  destruct (String.eqb k key); [discriminate|exact IH].
Qed.

Lemma truthy_password_Some (hashed : string) :
  hashed ≠ "" → truthy_password (Some hashed) = Some hashed.
Proof. destruct hashed; [congruence|reflexivity]. Qed.

(** X18: registering and logging in compose: a new username with a
    non-empty password gets an account with the bcrypt hash of the password
    and is logged in; and after any further operations, the same password
    logs the same account in again, provided bcrypt accepts the password
    against the hash it made. *)
Theorem register_then_login (w : World num)
    (name password email tier salt email' tier' salt' : string)
    (ops : list (op num)) :
  dict_get name (USERS w) = None →
  password ≠ "" →
  bcrypt_hashpw password salt ≠ "" →
  bcrypt_checkpw password (bcrypt_hashpw password salt) = Some true →
  let r := length (objects w) in
  let registered := login_or_create name password email tier salt w in
  let w2 := run ops registered.1 in
  registered.2 = Returned AccountCreated
  ∧ USERS_get registered.1 name
    = Some (r, User_init name tier (Some (bcrypt_hashpw password salt)))
  ∧ session_user registered.1 = Some r
  ∧ login_or_create name password email' tier' salt' w2
    = (save_users (set_session w2 r email'), Returned WelcomeBack).
Proof.
  intros Hnew Hpassword Hhash Hcheck r registered w2.
  apply String.eqb_neq in Hpassword.
  assert (Hreg : registered
    = (save_users (set_session (save_users
         (set_USERS (set_objects w (objects w ++
              [User_init name tier (Some (bcrypt_hashpw password salt))]))
            (USERS w ++ [(name, r)]))) r email), Returned AccountCreated)).
  { subst registered. unfold login_or_create.
    rewrite Hnew, Hpassword. reflexivity. }
  assert (Hkey : dict_get name (USERS registered.1) = Some r).
  { rewrite Hreg; cbn. rewrite dict_get_app_r by exact Hnew.
    cbn. rewrite String.eqb_refl. reflexivity. }
  assert (Hobj : objects registered.1 !! r
            = Some (User_init name tier (Some (bcrypt_hashpw password salt)))).
  { rewrite Hreg; cbn. apply list_lookup_middle. reflexivity. }
  split; [rewrite Hreg; reflexivity|].
  split; [apply USERS_get_inv; auto|].
  split; [rewrite Hreg; reflexivity|].
  destruct (run_preserves ops registered.1) as [Hkeys _].
  destruct (run_extends ops registered.1 r _ Hobj)
    as (account & Haccount & _ & Hsame & _).
  fold w2 in Haccount. specialize (Hkeys name r Hkey). fold w2 in Hkeys.
  unfold login_or_create. rewrite Hkeys, Haccount, Hsame. cbn [hashed_password User_init].
  rewrite truthy_password_Some by exact Hhash.
  rewrite Hcheck. reflexivity.
Qed.

(** X19: the handler welcomes a user back only on bcrypt's word: the
    username is a key of USERS, the account has a non-empty hash and
    checkpw accepted the password against that hash; the session then holds
    that account, and no account was touched. *)
Theorem login_sound (w w' : World num)
    (name password email tier salt : string) :
  login_or_create name password email tier salt w
    = (w', Returned WelcomeBack) →
  ∃ r account hashed,
    USERS_get w name = Some (r, account)
    ∧ hashed_password account = Some hashed
    ∧ hashed ≠ ""
    ∧ bcrypt_checkpw password hashed = Some true
    ∧ session_user w' = Some r
    ∧ session_email w' = Some email
    ∧ objects w' = objects w
    ∧ USERS w' = USERS w.
Proof.
  unfold login_or_create.
  destruct (dict_get name (USERS w)) as [r|] eqn:Hkey.
  - destruct (objects w !! r) as [account|] eqn:Haccount; [|discriminate].
    destruct (hashed_password account) as [hashed|] eqn:Hhashed; cbn;
      [|discriminate].
    destruct hashed as [|c hashed]; cbn; [discriminate|].
    destruct (bcrypt_checkpw password (String c hashed)) as [[|]|] eqn:Hcheck;
      try discriminate.
    intros [= <-]. exists r, account, (String c hashed).
    split; [apply USERS_get_inv; auto|].
    repeat split; try assumption. discriminate.
  - destruct (String.eqb password ""); discriminate.
Qed.

(** X20: typing the username of an existing account never creates or
    changes an account, whatever else is typed: the objects and USERS stay
    the same and the answer is not "Account created"; unless the answer is
    "Welcome back", the session stays the same too. *)
Theorem login_existing_keeps_accounts (w : World num)
    (name password email tier salt : string) (r : nat) :
  dict_get name (USERS w) = Some r →
  let after := login_or_create name password email tier salt w in
  objects after.1 = objects w
  ∧ USERS after.1 = USERS w
  ∧ after.2 ≠ Returned AccountCreated
  ∧ (after.2 ≠ Returned WelcomeBack →
     session_user after.1 = session_user w
     ∧ session_email after.1 = session_email w).
Proof.
  intros Hkey. cbn zeta. unfold login_or_create. rewrite Hkey.
  destruct (objects w !! r) as [account|]; [|repeat split; discriminate].
  destruct (truthy_password _) as [hashed|]; [|repeat split; discriminate].
  destruct (bcrypt_checkpw password hashed) as [[|]|]; cbn;
    repeat split; try discriminate; congruence.
Qed.

End Login.

(** ** The dashboard *)

Section Board.
Context {num : Type} `{!PyNumber num} `{!PyFloatConv num} `{!Bcrypt}.

(** X21: "Trade History" shows the ten most recent trades, newest first,
    numbered from 1: with n trades in the log there are min(10, n) rows and
    row i (from 0) is trade n-1-i with its Win or Loss label. *)
Theorem trade_history_rows_recent (u : User num) :
  let n := length (trades u) in
  length (trade_history_rows u) = min 10 n
  ∧ ∀ i, i < min 10 n →
      ∃ trade, trades u !! (n - S i) = Some trade
        ∧ trade_history_rows u !! i
          = Some (S i, trade, if is_win trade then "✅ Win" else "❌ Loss").
Proof.
  cbn zeta. unfold trade_history_rows. split.
  - rewrite length_imap, length_take, length_reverse. reflexivity.
  - intros i Hi.
    destruct (lookup_lt_is_Some_2 (trades u) (length (trades u) - S i))
      as [trade Htrade]; [lia|].
    exists trade. split; [exact Htrade|].
    rewrite list_lookup_imap, lookup_take_lt by lia.
    rewrite reverse_lookup by lia. rewrite Htrade. reflexivity.
Qed.

Lemma insert_by_balance_Permutation (u : User num) (l : list (User num)) :
  insert_by_balance u l ≡ₚ u :: l.
Proof.
  induction l as [|v l IH]; cbn; [reflexivity|].
  destruct (num_gt (balance v) (balance u)); [|reflexivity].
  rewrite IH. apply Permutation_swap.
Qed.

Lemma sorted_by_balance_Permutation (users : list (User num)) :
  sorted_by_balance_reverse users ≡ₚ users.
Proof.
  induction users as [|u users IH]; [reflexivity|].
  change (sorted_by_balance_reverse (u :: users))
    with (insert_by_balance u (sorted_by_balance_reverse users)).
  rewrite insert_by_balance_Permutation, IH. reflexivity.
Qed.

Lemma insert_by_balance_sorted (keys : list num) (u : User num)
    (l : list (User num)) :
  ordered_keys keys →
  balance u ∈ keys → Forall (λ v, balance v ∈ keys) l →
  StronglySorted not_poorer l →
  StronglySorted not_poorer (insert_by_balance u l).
Proof.
  intros [Hasym Htrans] Hu Hl Hsorted.
  induction Hsorted as [|v l Hsorted IH Hv]; cbn.
  - repeat constructor.
  - apply Forall_cons in Hl as [Hvk Hl].
    destruct (num_gt (balance v) (balance u)) eqn:Hgt.
    + constructor; [apply IH, Hl|].
      rewrite insert_by_balance_Permutation. constructor; [|exact Hv].
      apply Hasym; assumption.
    + constructor; [constructor; assumption|].
      constructor; [exact Hgt|].
      rewrite Forall_forall in Hv, Hl |- *. intros x Hx.
      apply (Htrans _ (balance v)); auto. apply Hv, Hx.
Qed.

Lemma sorted_by_balance_sorted (keys : list num) (users : list (User num)) :
  ordered_keys keys →
  Forall (λ v, balance v ∈ keys) users →
  StronglySorted not_poorer (sorted_by_balance_reverse users).
Proof.
  intros Hkeys. induction 1 as [|u users Hu Husers IH]; [constructor|].
  change (sorted_by_balance_reverse (u :: users))
    with (insert_by_balance u (sorted_by_balance_reverse users)).
  apply (insert_by_balance_sorted keys); [exact Hkeys|exact Hu| |exact IH].
  rewrite sorted_by_balance_Permutation. exact Husers.
Qed.

(** X22: the leaderboard holds the five richest accounts in descending
    order of balance: it has min(5, number of users) entries, each entry has
    a balance no smaller than the entries after it, and the users left out
    are, with the entries, exactly the users of USERS and none of them is
    richer than an entry.  The balances must be ordered by [>], as numbers
    other than nan are. *)
Theorem leaderboard_top_five (w : World num) :
  ordered_keys (map balance (map snd (USERS_items w))) →
  length (leaderboard w) = min 5 (length (USERS_items w))
  ∧ StronglySorted not_poorer (leaderboard w)
  ∧ ∃ others,
      leaderboard w ++ others ≡ₚ map snd (USERS_items w)
      ∧ ∀ a b, a ∈ leaderboard w → b ∈ others → not_poorer a b.
Proof.
  intros Hkeys. unfold leaderboard.
  set (users := map snd (USERS_items w)) in *.
  assert (Hsorted : StronglySorted not_poorer (sorted_by_balance_reverse users)).
  { apply (sorted_by_balance_sorted (map balance users)); [exact Hkeys|].
    apply Forall_forall. intros v Hv. apply list_elem_of_fmap_2, Hv. }
  rewrite <- (take_drop 5 (sorted_by_balance_reverse users)) in Hsorted.
  split; [|split].
  - rewrite length_take, (Permutation_length (sorted_by_balance_Permutation users)).
    subst users. rewrite length_map. reflexivity.
  - eapply StronglySorted_app_1_l, Hsorted.
  - exists (drop 5 (sorted_by_balance_reverse users)). split.
    + rewrite take_drop. apply sorted_by_balance_Permutation.
    + intros a b Ha Hb. eapply StronglySorted_app_1_elem_of; eassumption.
Qed.

End Board.

(** ** From one run of the script to the next *)

Section Reruns.
Context {num : Type} `{!PyNumber num} `{!PyFloatConv num} `{!Bcrypt}.



Lemma rerun_keeps_objects (w w1 : World num) (r : nat) (u : User num) :
  rerun w = Some w1 → objects w !! r = Some u → objects w1 !! r = Some u.
Proof.
  unfold rerun. destruct (load_users (data_file w)) as [users|]; cbn;
    [|discriminate].
  intros [= <-] Hu. cbn. apply lookup_app_l_Some, Hu.
Qed.

(** What USERS shows when an object of the previous run is written back:
    the accounts loaded from the file. *)
Lemma items_after_session_write (w : World num)
    (users : list (string * User num)) (r : nat) (u' : User num)
    (session : option nat) (email : option string) (file : option (json num)) :
  r < length (objects w) →
  USERS_items
    {| objects := <[r := u']> (objects w ++ map snd users);
       USERS := imap (λ i '(username, _),
                        (username, length (objects w) + i)) users;
       session_user := session;
       session_email := email;
       data_file := file |}
  = users.
Proof.
  intros Hr. unfold USERS_items; cbn.
  rewrite insert_app_l by exact Hr.
  rewrite <- (length_insert (objects w) r u').
  apply items_of_fresh_objects.
Qed.

(** X23: a trade placed from the dashboard is not saved.  The click runs
    the script again, USERS is loaded anew from users.json and the trader
    holds the object of the session, which is none of USERS' objects: the
    trade is recorded in that object, USERS still shows the accounts as the
    file has them, and save_users writes the file back as it was.  The file
    is one save_users wrote and the balance is at least 1. *)
Theorem session_trade_not_saved (w : World num)
    (users : list (string * User num)) (r : nat) (u : User num)
    (amount : num) (prediction : string) (reply : http_reply num)
    (draw : nat) (now : string) :
  data_file w = Some (save_users_data users) →
  Forall keyed users →
  session_user w = Some r →
  objects w !! r = Some u →
  num_gt (num_of_Z 1) (balance u) = false →
  ∃ w' u' answer,
    place_trade_click amount prediction reply draw now w = Some w'
    ∧ place_trade u amount prediction reply draw now = Some (u', answer)
    ∧ objects w' !! r = Some u'
    ∧ session_user w' = Some r
    ∧ USERS_items w' = users
    ∧ data_file w' = data_file w.
Proof.
  intros Hfile Hkeyed Hsession Hu Hcan.
  assert (Hload : load_users (data_file w) = Some users).
  { rewrite Hfile, load_users_saved. f_equal. apply keyed_renamed, Hkeyed. }
  destruct (place_trade_unfold u amount prediction reply draw now)
    as (result & _ & Hplace). cbn zeta in Hplace.
  set (u' := update_balance _ _ _) in Hplace.
  set (answer := (is_win _, result, trade_delta _)) in Hplace.
  pose proof (lookup_lt_Some _ _ _ Hu) as Hr.
  set (w' := {| objects := <[r := u']> (objects w ++ map snd users);
                USERS := imap (λ i '(username, _),
                                 (username, length (objects w) + i)) users;
                session_user := Some r;
                session_email := session_email w;
                data_file := data_file w |}).
  assert (Hitems : USERS_items w' = users)
    by (apply items_after_session_write, Hr).
  exists (save_users w'), u', answer.
  split.
  { unfold place_trade_click, rerun. rewrite Hload; cbn.
    rewrite Hsession; cbn.
    rewrite (lookup_app_l_Some _ _ _ _ Hu); cbn. rewrite Hcan.
    unfold TradingSystem_place_trade; cbn.
    rewrite (lookup_app_l_Some _ _ _ _ Hu), Hplace. reflexivity. }
  split; [exact Hplace|].
  split.
  { cbn. apply list_lookup_insert_eq. rewrite length_app. lia. }
  split; [reflexivity|].
  split; [exact Hitems|].
  change (data_file (save_users w'))
    with (Some (save_users_data (USERS_items w'))).
  rewrite Hitems. symmetry. exact Hfile.
Qed.

End Reruns.

(** ** The further properties on concrete inputs *)

Lemma well_formed_feed_decides_witness :
  get_real_market_trend feed_down 7 = Some "down".
Proof.
  unfold feed_down.
  erewrite (well_formed_feed_decides _ "2024-01-02 16:00:00"
              "2024-01-02 15:59:00" _ _ [] (JStr "472.65") (JStr "472.81")
              472.65%float 472.81%float 7);
    [reflexivity|reflexivity|discriminate|reflexivity..].
Defined.

Lemma short_series_falls_back_witness :
  trend_from_feed feed_one_point = None
  ∧ get_real_market_trend feed_one_point 3 = Some "down".
Proof.
  eapply (short_series_falls_back _ _ 3); [reflexivity|cbn; lia].
Defined.

Lemma load_users_missing_key_fails_witness :
  load_users (Some broken_file) = None.
Proof.
  apply (load_users_missing_key_fails _ 1 "erin" [("account_type", JStr "real")]);
    [reflexivity|left; reflexivity].
Defined.

Lemma load_user_defaults_witness :
  load_user "carol"
    (JObj [("account_type", JStr "demo"); ("balance", JNum 250%float)])
  = Some (mkUser "carol" "demo" None 250%float [] [] false).
Proof. apply load_user_defaults; reflexivity. Defined.

Lemma load_save_load_witness :
  ∃ users, load_users (Some legacy_file) = Some users
    ∧ load_users (Some (save_users_data users)) = Some users.
Proof.
  eexists. split; [vm_compute; reflexivity|].
  apply (load_save_load (Some legacy_file)). vm_compute; reflexivity.
Defined.

Lemma logs_append_only_witness :
  ∃ u, objects world_alice !! 0 = Some u
    ∧ ∃ u' new_trades new_snapshots,
        objects (run trade_after_unlock world_alice) !! 0 = Some u'
        ∧ trades u' = trades u ++ new_trades
        ∧ history u' = history u ++ new_snapshots.
Proof.
  eexists. split; [vm_compute; reflexivity|].
  apply logs_append_only. vm_compute; reflexivity.
Defined.

Lemma identity_never_changes_witness :
  ∃ u, objects world_alice !! 0 = Some u
    ∧ ∃ u', objects (run trade_after_unlock world_alice) !! 0 = Some u'
        ∧ username u' = username u
        ∧ hashed_password u' = hashed_password u.
Proof.
  eexists. split; [vm_compute; reflexivity|].
  apply identity_never_changes. vm_compute; reflexivity.
Defined.

Lemma level_never_drops_witness :
  ∃ u, objects world_alice !! 0 = Some u
    ∧ ∃ u', objects (run trade_after_unlock world_alice) !! 0 = Some u'
        ∧ level_rank (get_level u) ≤ level_rank (get_level u').
Proof.
  eexists. split; [vm_compute; reflexivity|].
  apply level_never_drops. vm_compute; reflexivity.
Defined.

Lemma usernames_stay_unique_witness :
  NoDup (map fst (USERS world_alice))
  ∧ NoDup (map fst (USERS (run [register_bob; register_bob] world_alice))).
Proof.
  assert (Hone : NoDup (map fst (USERS world_alice)))
    by (vm_compute; apply NoDup_singleton).
  split; [exact Hone|apply usernames_stay_unique, Hone].
Defined.

Lemma reachable_live_references_witness :
  start None = Some empty_world ∧ live_references world_alice.
Proof.
  split; [reflexivity|].
  apply (reachable_live_references None empty_world). reflexivity.
Defined.

Lemma reachable_restart_witness :
  ∃ w', start (data_file (save_users world_alice)) = Some w'
        ∧ USERS_items w' = USERS_items world_alice.
Proof. apply (reachable_restart None empty_world). reflexivity. Defined.

Lemma check_payment_effect_witness :
  ∃ r account,
    USERS_get world_alice "alice" = Some (r, account)
    ∧ objects world_alice_unlocked
      = <[r := mkUser (username account) "real" (hashed_password account)
                      (num_of_Z 100) (trades account) (history account) true]>
        (objects world_alice)
    ∧ (∀ r', r' ≠ r →
         objects world_alice_unlocked !! r' = objects world_alice !! r')
    ∧ USERS world_alice_unlocked = USERS world_alice
    ∧ session_user world_alice_unlocked = session_user world_alice
    ∧ session_email world_alice_unlocked = session_email world_alice
    ∧ data_file world_alice_unlocked
      = Some (save_users_data (USERS_items world_alice_unlocked)).
Proof.
  apply (check_payment_effect "alice" (paid_by "alice")).
  vm_compute; reflexivity.
Defined.

Lemma check_payment_false_changes_nothing_witness :
  (check_payment_and_unlock "zoe" (paid_by "zoe") world_alice).1 = world_alice.
Proof.
  apply (check_payment_false_changes_nothing "zoe" (paid_by "zoe")).
  vm_compute; reflexivity.
Defined.

Lemma unlock_survives_restart_witness :
  ∃ w'' account,
    start (data_file world_alice_unlocked) = Some w''
    ∧ dict_get "alice" (USERS_items w'') = Some account
    ∧ premium_unlocked account = true
    ∧ account_type account = "real"
    ∧ balance account = num_of_Z 100.
Proof.
  apply (unlock_survives_restart "alice" (paid_by "alice") world_alice).
  - apply (run_live_references _ empty_world), (start_live_references None).
    reflexivity.
  - vm_compute; reflexivity.
Defined.

Lemma Trade_from_kwargs_exact_keys_witness :
  map fst shuffled_trade ≡ₚ ["amount"; "prediction"; "result"]
  ∧ dict_get "amount" shuffled_trade = Some (JNum 5%float)
  ∧ dict_get "prediction" shuffled_trade = Some (JStr "down")
  ∧ dict_get "result" shuffled_trade = Some (JStr "up").
Proof.
  apply (Trade_from_kwargs_exact_keys shuffled_trade (mkTrade 5%float "down" "up")).
  reflexivity.
Defined.

Lemma register_then_login_witness :
  (login_or_create "bob" "hunter2" "bob@example.com" "real" "$2b$12$"
     world_alice).2 = Returned AccountCreated
  ∧ login_or_create "bob" "hunter2" "bob@example.org" "demo" "$2b$12$"
      (run trade_after_unlock world_two)
    = (save_users (set_session (run trade_after_unlock world_two) 1
                               "bob@example.org"),
       Returned WelcomeBack).
Proof.
  destruct (register_then_login world_alice "bob" "hunter2" "bob@example.com"
              "real" "$2b$12$" "bob@example.org" "demo" "$2b$12$"
              trade_after_unlock)
    as (Hcreated & _ & _ & Hagain);
    [reflexivity|discriminate|discriminate|reflexivity|].
  split; [exact Hcreated|exact Hagain].
Defined.

Lemma login_sound_witness :
  ∃ r account hashed,
    USERS_get world_two "bob" = Some (r, account)
    ∧ hashed_password account = Some hashed
    ∧ hashed ≠ ""
    ∧ bcrypt_checkpw "hunter2" hashed = Some true
    ∧ session_user (login_or_create "bob" "hunter2" "bob@example.com" "demo"
                      "$2b$12$" world_two).1 = Some r
    ∧ session_email (login_or_create "bob" "hunter2" "bob@example.com" "demo"
                       "$2b$12$" world_two).1 = Some "bob@example.com"
    ∧ objects (login_or_create "bob" "hunter2" "bob@example.com" "demo"
                 "$2b$12$" world_two).1 = objects world_two
    ∧ USERS (login_or_create "bob" "hunter2" "bob@example.com" "demo"
               "$2b$12$" world_two).1 = USERS world_two.
Proof.
  apply (login_sound world_two _ "bob" "hunter2" "bob@example.com" "demo"
           "$2b$12$").
  vm_compute; reflexivity.
Defined.

Lemma login_existing_keeps_accounts_witness :
  let after := login_or_create "alice" "wrong" "eve@example.com" "real"
                 "$2b$12$" world_two in
  objects after.1 = objects world_two
  ∧ USERS after.1 = USERS world_two
  ∧ after.2 ≠ Returned AccountCreated
  ∧ (after.2 ≠ Returned WelcomeBack →
     session_user after.1 = session_user world_two
     ∧ session_email after.1 = session_email world_two).
Proof.
  apply (login_existing_keeps_accounts world_two "alice" "wrong"
           "eve@example.com" "real" "$2b$12$" 0).
  reflexivity.
Defined.

Lemma leaderboard_top_five_witness :
  length (leaderboard world_two) = 2
  ∧ StronglySorted not_poorer (leaderboard world_two)
  ∧ ∃ others,
      leaderboard world_two ++ others ≡ₚ map snd (USERS_items world_two)
      ∧ ∀ a b, a ∈ leaderboard world_two → b ∈ others → not_poorer a b.
Proof.
  apply (leaderboard_top_five world_two).
  assert (Hkeys : map balance (map snd (USERS_items world_two))
                  = [9900%float; 0%float]) by (vm_compute; reflexivity).
  rewrite Hkeys. split.
  - intros a b Ha Hb. split_keys; vm_compute; congruence.
  - intros a b c Ha Hb Hc. split_keys; vm_compute; congruence.
Defined.

Lemma session_trade_not_saved_witness :
  ∃ w' u' answer,
    place_trade_click 100%float "up" feed_down 0 "2024-01-02 16:00:01.000000"
      world_registered = Some w'
    ∧ place_trade alice 100%float "up" feed_down 0 "2024-01-02 16:00:01.000000"
      = Some (u', answer)
    ∧ objects w' !! 0 = Some u'
    ∧ session_user w' = Some 0
    ∧ USERS_items w' = [("alice", alice)]
    ∧ data_file w' = data_file world_registered.
Proof.
  apply (session_trade_not_saved world_registered [("alice", alice)] 0 alice).
  - reflexivity.
  - repeat constructor.
  - reflexivity.
  - reflexivity.
  - reflexivity.
Defined.

(** After the click the session shows 9900 and the file still says 10000. *)
Example trade_lost_on_restart :
  ∃ w', place_trade_click 100%float "up" feed_down 0
          "2024-01-02 16:00:01.000000" world_registered = Some w'
    ∧ (balance <$> objects w' !! 0) = Some 9900%float
    ∧ (balance <$> dict_get "alice" (USERS_items w')) = Some 10000%float
    ∧ load_users (data_file w') = Some [("alice", alice)].
Proof. eexists. vm_compute. auto. Qed.


(** The trade changed the balance, and the history shows it. *)
Example first_trade_snapshot :
  ∃ u', objects (step world_registered first_trade) !! 0 = Some u'
        ∧ balance u' = 9900%float
        ∧ snap_balance <$> last (history u') = Some 9900%float.
Proof. eexists. vm_compute. auto. Qed.

(** The label of a new account is not the bare name of the tier. *)
Lemma get_level_label_has_badge :
  length (trades alice) = 0
  ∧ get_level alice = "🔰 Beginner"
  ∧ get_level alice ≠ "Beginner".
Proof. repeat split. vm_compute. discriminate. Qed.

(** After a won trade of 1.0 and a lost trade of 7.7 the balance is not the
    initial balance plus the sum of the two deltas, whichever way the sum is
    taken. *)
Lemma balance_is_not_initial_plus_sum :
  ∃ alice' answers,
    place_trades alice two_orders = Some (alice', answers)
    ∧ map trade_delta (trades alice') = map snd answers
    ∧ balance alice'
      ≠ num_add (balance alice)
          (fold_left num_add (map trade_delta (trades alice')) (num_of_Z 0))
    ∧ balance alice'
      ≠ num_add (balance alice)
          (fold_right num_add (num_of_Z 0) (map trade_delta (trades alice'))).
Proof.
  eexists _, _. split; [vm_compute; reflexivity|].
  split; [vm_compute; reflexivity|].
  split; vm_compute; intros Hsame; discriminate Hsame.
Qed.
